(** * Chimney Park fast-file processing engine: a shallow embedding

    The development follows [EC_Processing_Engine.py] (class
    [fast_processing_engine]).  Python and pandas values are embedded as
    plain data:

    - exceptions are an inductive type and fallible code lives in the
      [result] monad;
    - a [pd.Timestamp] is its count of nanoseconds since the epoch, a [Z];
    - a [pd.DataFrame] is a record holding its row index and an ordered
      list of labelled columns (labels may repeat, as pandas allows);
    - Python dicts are association lists, since insertion order is
      observable ([enumerate(self.site_info)], site declaration order);
    - the file system is an explicit environment (directory listings and
      the content of each raw file as the reader returns it).

    Numeric readings are kept as exact integers: the properties below
    depend on which cells are missing, on labels and on row keys, never
    on floating-point rounding. *)

From Stdlib Require Import ZArith List String Ascii Bool Lia QArith Lqa Sorted DecimalString.
Import ListNotations.
Local Open Scope string_scope.
Local Open Scope Z_scope.

Set Implicit Arguments.

(* ===================================================================== *)
(** * Python core: exceptions, strings, lists *)
(* ===================================================================== *)

Module Py.

(** The exceptions the engine can raise.  All of them are Python or
    library built-ins: the source defines no exception class of its own. *)
Inductive exn : Type :=
| IndexError
| KeyError
| ValueError
| TypeError
| UnboundLocalError
| FileNotFoundError
| ArrowInvalid.

Definition exn_name (e : exn) : string :=
  match e with
  | IndexError => "IndexError"
  | KeyError => "KeyError"
  | ValueError => "ValueError"
  | TypeError => "TypeError"
  | UnboundLocalError => "UnboundLocalError"
  | FileNotFoundError => "FileNotFoundError"
  | ArrowInvalid => "ArrowInvalid"
  end.

Inductive result (A : Type) : Type :=
| Ok (a : A)
| Raise (e : exn).

Arguments Ok {A} a.
Arguments Raise {A} e.

Definition bind {A B : Type} (r : result A) (k : A -> result B) : result B :=
  match r with
  | Ok a => k a
  | Raise e => Raise e
  end.

Definition raises {A : Type} (r : result A) : Prop :=
  exists e, r = Raise e.

Definition returns {A : Type} (r : result A) : Prop :=
  exists a, r = Ok a.

(** [r] fails with an exception whose class is called [name]. *)
Definition raises_named {A : Type} (r : result A) (name : string) : Prop :=
  exists e, r = Raise e /\ exn_name e = name.

(** ** Strings *)

Fixpoint str_prefix (p s : string) : bool :=
  match p with
  | EmptyString => true
  | String a p' =>
      match s with
      | EmptyString => false
      | String b s' => Ascii.eqb a b && str_prefix p' s'
      end
  end.

(** [needle in s] *)
Fixpoint str_contains (needle s : string) : bool :=
  str_prefix needle s ||
  match s with
  | EmptyString => false
  | String _ s' => str_contains needle s'
  end.

Fixpoint str_drop (n : nat) (s : string) : string :=
  match n with
  | O => s
  | S k => match s with
           | EmptyString => EmptyString
           | String _ s' => str_drop k s'
           end
  end.

Fixpoint str_take (n : nat) (s : string) : string :=
  match n with
  | O => EmptyString
  | S k => match s with
           | EmptyString => EmptyString
           | String a s' => String a (str_take k s')
           end
  end.

(** [s[:-n]] for a literal [n > 0] *)
Definition str_drop_last (n : nat) (s : string) : string :=
  str_take (String.length s - n) s.

Fixpoint split_go (sep s cur : string) (skip : nat) : list string :=
  match s with
  | EmptyString => [cur]
  | String c s' =>
      match skip with
      | S k => split_go sep s' cur k
      | O =>
          if str_prefix sep s
          then cur :: split_go sep s' EmptyString (String.length sep - 1)
          else split_go sep s' (cur ++ String c EmptyString) 0
      end
  end.

(** [s.split(sep)] for a non-empty separator: every non-overlapping
    occurrence found from the left cuts the string. *)
Definition str_split (sep s : string) : list string :=
  split_go sep s EmptyString 0.

Fixpoint split_chars_go (is_sep : ascii -> bool) (s cur : string) : list string :=
  match s with
  | EmptyString => [cur]
  | String c s' =>
      if is_sep c
      then cur :: split_chars_go is_sep s' EmptyString
      else split_chars_go is_sep s' (cur ++ String c EmptyString)
  end.

(** [re.split(p, s)] for a pattern that is an alternation of single
    characters. *)
Definition re_split_chars (is_sep : ascii -> bool) (s : string) : list string :=
  split_chars_go is_sep s EmptyString.

(** [re.sub(p, r, s)] for a pattern that is an alternation of single
    characters. *)
Fixpoint re_sub_chars (is_sep : ascii -> bool) (r s : string) : string :=
  match s with
  | EmptyString => EmptyString
  | String c s' =>
      if is_sep c then r ++ re_sub_chars is_sep r s'
      else String c (re_sub_chars is_sep r s')
  end.

Definition str_join (l : list string) : string := String.concat EmptyString l.

(** [re.search(a1|a2|..., s)[0]] for literal alternatives: the leftmost
    position where some alternative matches, and there the first
    alternative that does. *)
Fixpoint re_search_alts (alts : list string) (s : string) : option string :=
  match find (fun a => str_prefix a s) alts with
  | Some a => Some a
  | None =>
      match s with
      | EmptyString => None
      | String _ s' => re_search_alts alts s'
      end
  end.

(** ** Lists *)

(** [l[i]] *)
Definition list_get {A : Type} (l : list A) (i : nat) : result A :=
  match nth_error l i with
  | Some a => Ok a
  | None => Raise IndexError
  end.

(** [l[-1]] *)
Definition list_last {A : Type} (l : list A) : result A :=
  match rev l with
  | a :: _ => Ok a
  | [] => Raise IndexError
  end.

(** [l[1:-1]] *)
Definition slice_1_m1 {A : Type} (l : list A) : list A :=
  removelast (tl l).

(** [d[k]] on a dict kept as an association list *)
Fixpoint assoc {V : Type} (k : string) (d : list (string * V)) : option V :=
  match d with
  | [] => None
  | (k', v) :: d' => if String.eqb k k' then Some v else assoc k d'
  end.

Definition dict_get {V : Type} (d : list (string * V)) (k : string) : result V :=
  match assoc k d with
  | Some v => Ok v
  | None => Raise KeyError
  end.

(** [d[k] = v]: an existing key keeps its position, a new key goes last. *)
Fixpoint dict_set {V : Type} (d : list (string * V)) (k : string) (v : V)
  : list (string * V) :=
  match d with
  | [] => [(k, v)]
  | (k', v') :: d' =>
      if String.eqb k k' then (k, v) :: d' else (k', v') :: dict_set d' k v
  end.

Definition dict_keys {V : Type} (d : list (string * V)) : list string :=
  map fst d.

Definition str_mem (k : string) (l : list string) : bool :=
  existsb (String.eqb k) l.

End Py.

Export Py.

Declare Scope py_scope.
Delimit Scope py_scope with py.
Notation "x <- c ;; k" := (bind c (fun x => k))
  (at level 61, c at next level, right associativity) : py_scope.
Notation "' pat <- c ;; k" := (bind c (fun x => match x with pat => k end))
  (at level 61, pat pattern, c at next level, right associativity) : py_scope.
Local Open Scope py_scope.

(* ===================================================================== *)
(** * Timestamps and the calendar *)
(* ===================================================================== *)

Module Calendar.

(** A [pd.Timestamp]: nanoseconds since 1970-01-01 00:00. *)
Definition Timestamp : Type := Z.

(** A value returned by [pd.to_datetime]: a timestamp or [NaT]. *)
Inductive datetime : Type :=
| NaT
| TS (t : Timestamp).

Definition ns_per_ms : Z := 1000000.
Definition ns_per_s : Z := 1000 * ns_per_ms.
Definition ns_per_min : Z := 60 * ns_per_s.
Definition ns_per_hour : Z := 60 * ns_per_min.
Definition ns_per_day : Z := 24 * ns_per_hour.

(** [pd.Timedelta(f'{n} ms')] and [pd.Timedelta(f'{n} Min')] *)
Definition Timedelta_ms (n : Z) : Z := n * ns_per_ms.
Definition Timedelta_min (n : Z) : Z := n * ns_per_min.

(** Proleptic Gregorian calendar, days counted from 1970-01-01. *)
Definition days_from_civil (y m d : Z) : Z :=
  let y' := if m <=? 2 then y - 1 else y in
  let era := y' / 400 in
  let yoe := y' - era * 400 in
  let mp := if m >? 2 then m - 3 else m + 9 in
  let doy := (153 * mp + 2) / 5 + d - 1 in
  let doe := yoe * 365 + yoe / 4 - yoe / 100 + doy in
  era * 146097 + doe - 719468.

Definition civil_from_days (z : Z) : Z * Z * Z :=
  let z' := z + 719468 in
  let era := z' / 146097 in
  let doe := z' - era * 146097 in
  let yoe := (doe - doe / 1460 + doe / 36524 - doe / 146096) / 365 in
  let y := yoe + era * 400 in
  let doy := doe - (365 * yoe + yoe / 4 - yoe / 100) in
  let mp := (5 * doy + 2) / 153 in
  let d := doy - (153 * mp + 2) / 5 + 1 in
  let m := if mp <? 10 then mp + 3 else mp - 9 in
  (if m <=? 2 then y + 1 else y, m, d).

Definition is_leap (y : Z) : bool :=
  ((y mod 4 =? 0) && negb (y mod 100 =? 0)) || (y mod 400 =? 0).

Definition days_in_month (y m : Z) : Z :=
  if m =? 2 then (if is_leap y then 29 else 28)
  else if (m =? 4) || (m =? 6) || (m =? 9) || (m =? 11) then 30
  else 31.

(** [ts.date()], as a day number *)
Definition date (t : Timestamp) : Z := t / ns_per_day.

Definition year (t : Timestamp) : Z := fst (fst (civil_from_days (date t))).
Definition month (t : Timestamp) : Z := snd (fst (civil_from_days (date t))).
Definition day (t : Timestamp) : Z := snd (civil_from_days (date t)).
Definition hour (t : Timestamp) : Z := (t mod ns_per_day) / ns_per_hour.
Definition minute (t : Timestamp) : Z := (t mod ns_per_hour) / ns_per_min.
Definition second (t : Timestamp) : Z := (t mod ns_per_min) / ns_per_s.
Definition nanosecond_of_second (t : Timestamp) : Z := t mod ns_per_s.

(** [pd.to_datetime("yyyy-mm-dd")] for a date literal: midnight of that day *)
Definition midnight (y m d : Z) : Timestamp := days_from_civil y m d * ns_per_day.

(** A [datetime.date] against a [pd.Timestamp]: pandas lifts the date to
    midnight before comparing. *)
Definition date_lt (d : Z) (t : Timestamp) : bool := d * ns_per_day <? t.
Definition date_gt (d : Z) (t : Timestamp) : bool := d * ns_per_day >? t.
Definition date_eq (d : Z) (t : Timestamp) : bool := d * ns_per_day =? t.

(** Decimal rendering, [f'{z:0{w}d}'] *)
Definition dec (z : Z) : string := NilZero.string_of_uint (N.to_uint (Z.to_N z)).

Fixpoint zeros (n : nat) : string :=
  match n with
  | O => EmptyString
  | S k => String "0" (zeros k)
  end.

Definition pad (w : nat) (s : string) : string :=
  zeros (w - String.length s) ++ s.

Definition fmt_d (w : nat) (z : Z) : string :=
  if z <? 0 then String "-" (pad (w - 1) (dec (- z))) else pad w (dec z).

(** [str(ts)]: ISO date and time separated by a blank; the fraction is
    printed only when it is not zero, with six digits, or nine when the
    timestamp is not a whole number of microseconds. *)
Definition str_Timestamp (t : Timestamp) : string :=
  fmt_d 4 (year t) ++ "-" ++ fmt_d 2 (month t) ++ "-" ++ fmt_d 2 (day t) ++ " " ++
  fmt_d 2 (hour t) ++ ":" ++ fmt_d 2 (minute t) ++ ":" ++ fmt_d 2 (second t) ++
  (let f := nanosecond_of_second t in
   if f =? 0 then EmptyString
   else if f mod 1000 =? 0 then "." ++ fmt_d 6 (f / 1000)
   else "." ++ fmt_d 9 f).

(** [pd.date_range(start, periods=n, freq=step)] for a positive step *)
Definition date_range_periods (start : Timestamp) (n : nat) (step : Z) : list Timestamp :=
  map (fun k => start + Z.of_nat k * step) (seq 0 n).

(** [pd.date_range(start, end, freq=step)] for a positive step: the grid
    points [start + k*step] that do not pass [end]. *)
Definition date_range_to (start stop step : Z) : list Timestamp :=
  if stop <? start then []
  else date_range_periods start (Z.to_nat ((stop - start) / step + 1)) step.

(** ** [pd.to_datetime(s, format="%Y%m%d%H%M")]

    The format is compiled to the regular expression of [strptime],
    [(\d\d\d\d)(1[0-2]|0[1-9]|[1-9])(3[0-1]|[1-2]\d|0[1-9]|[1-9]| [1-9])
     (2[0-3]|[0-1]\d|\d)([0-5]\d|\d)], which is matched at the start of
    the string with the usual ordered backtracking; then the whole string
    must have been consumed.  The empty string and the spellings of
    [NaT] and [NaN] are not parsed: they give [NaT]. *)

Definition char_in (lo hi : string) (c : ascii) : bool :=
  match lo, hi with
  | String l _, String h _ => (nat_of_ascii l <=? nat_of_ascii c)%nat &&
                              (nat_of_ascii c <=? nat_of_ascii h)%nat
  | _, _ => false
  end.

Definition digit : ascii -> bool := char_in "0" "9".
Definition lit (s : string) (c : ascii) : bool :=
  match s with
  | String a _ => Ascii.eqb a c
  | EmptyString => false
  end.

(** One alternative of a group: a sequence of character classes. *)
Definition alt : Type := list (ascii -> bool).

Fixpoint match_alt (a : alt) (s : string) : option (string * string) :=
  match a with
  | [] => Some (EmptyString, s)
  | p :: a' =>
      match s with
      | EmptyString => None
      | String c s' =>
          if p c then
            match match_alt a' s' with
            | Some (m, rest) => Some (String c m, rest)
            | None => None
            end
          else None
      end
  end.

Fixpoint first_some {A B : Type} (f : A -> option B) (l : list A) : option B :=
  match l with
  | [] => None
  | a :: l' => match f a with
               | Some b => Some b
               | None => first_some f l'
               end
  end.

(** Groups in sequence, alternatives tried in order, backtracking into
    earlier groups when a later one fails. *)
Fixpoint match_groups (gs : list (list alt)) (s : string)
  : option (list string * string) :=
  match gs with
  | [] => Some ([], s)
  | g :: gs' =>
      first_some
        (fun a =>
           match match_alt a s with
           | Some (m, rest) =>
               match match_groups gs' rest with
               | Some (ms, r) => Some (m :: ms, r)
               | None => None
               end
           | None => None
           end) g
  end.

Definition re_Y : list alt := [[digit; digit; digit; digit]].
Definition re_m : list alt :=
  [[lit "1"; char_in "0" "2"]; [lit "0"; char_in "1" "9"]; [char_in "1" "9"]].
Definition re_d : list alt :=
  [[lit "3"; char_in "0" "1"]; [char_in "1" "2"; digit]; [lit "0"; char_in "1" "9"];
   [char_in "1" "9"]; [lit " "; char_in "1" "9"]].
Definition re_H : list alt :=
  [[lit "2"; char_in "0" "3"]; [char_in "0" "1"; digit]; [digit]].
Definition re_M : list alt := [[char_in "0" "5"; digit]; [digit]].

(** [int(s)] on a matched group: digits, possibly after a blank *)
Fixpoint int_of_digits (acc : Z) (s : string) : Z :=
  match s with
  | EmptyString => acc
  | String c s' =>
      if digit c then int_of_digits (10 * acc + (Z.of_nat (nat_of_ascii c) - 48)) s'
      else int_of_digits acc s'
  end.

Definition nat_strings : list string := ["NaT"; "nat"; "NAT"; "nan"; "NaN"; "NAN"].

Definition in_int64 (z : Z) : bool := (- 2 ^ 63 <? z) && (z <? 2 ^ 63).

Definition to_datetime_YmdHM (s : string) : result datetime :=
  if (String.length s =? 0)%nat || str_mem s nat_strings then Ok NaT
  else
    match match_groups [re_Y; re_m; re_d; re_H; re_M] s with
    | Some ([Y; m; d; H; M], rest) =>
        if negb (String.length rest =? 0)%nat then Raise ValueError
        else
          let y := int_of_digits 0 Y in
          let mo := int_of_digits 0 m in
          let dd := int_of_digits 0 d in
          if (y <? 1) || (days_in_month y mo <? dd) then Raise ValueError
          else
            let t := days_from_civil y mo dd * ns_per_day
                     + int_of_digits 0 H * ns_per_hour
                     + int_of_digits 0 M * ns_per_min in
            if in_int64 t then Ok (TS t) else Raise ValueError
    | _ => Raise ValueError
    end.

End Calendar.

Export Calendar.

(* ===================================================================== *)
(** * Data frames *)
(* ===================================================================== *)

Module Pandas.

Local Open Scope list_scope.

(** A cell of a numeric or datetime column: the missing-value sentinel
    ([np.nan], [NaT]) or a value. *)
Inductive cell : Type :=
| NaN
| Val (v : Z).

Definition cell_eqb (a b : cell) : bool :=
  match a, b with
  | NaN, NaN => true
  | Val x, Val y => x =? y
  | _, _ => false
  end.

(** Order of row keys in a sorted join: values ascending, missing last. *)
Definition cell_leb (a b : cell) : bool :=
  match a, b with
  | Val x, Val y => x <=? y
  | Val _, NaN => true
  | NaN, Val _ => false
  | NaN, NaN => true
  end.

Definition is_missing (c : cell) : bool :=
  match c with
  | NaN => true
  | Val _ => false
  end.

Definition column : Type := string * list cell.

Record frame : Type := DataFrame {
  index_name : option string;
  index : list cell;
  columns : list column
}.

Definition names (df : frame) : list string := map fst (columns df).
Definition nrows (df : frame) : nat := List.length (index df).

Definition RangeIndex (n : nat) : list cell :=
  map (fun k => Val (Z.of_nat k)) (seq 0 n).

Fixpoint strs_eqb (a b : list string) : bool :=
  match a, b with
  | [], [] => true
  | x :: a', y :: b' => String.eqb x y && strs_eqb a' b'
  | _, _ => false
  end.

Fixpoint nodupb (l : list string) : bool :=
  match l with
  | [] => true
  | x :: l' => negb (str_mem x l') && nodupb l'
  end.

Definition named (c : string) (col : column) : bool := String.eqb (fst col) c.

(** [pd.DataFrame({label: timestamps})] *)
Definition frame_of_timestamps (label : string) (ts : list Timestamp) : frame :=
  {| index_name := None;
     index := RangeIndex (List.length ts);
     columns := [(label, map Val ts)] |}.

Definition missing_column (n : nat) : list cell := repeat NaN n.

(** The values under the first column labelled [c], or an all-missing
    column when there is none. *)
Definition values_or_missing (df : frame) (c : string) : list cell :=
  match assoc c (columns df) with
  | Some v => v
  | None => missing_column (nrows df)
  end.

(** [df.reindex(columns=target, fill_value=np.nan)]: each target label
    is looked up among the labels of [df], which must be unique unless
    the target is the label list itself; a label not found becomes an
    all-missing column.  The target may repeat a label. *)
Definition reindex_columns (df : frame) (target : list string) : result frame :=
  if strs_eqb target (names df) then Ok df
  else if nodupb (names df) then
    Ok {| index_name := index_name df;
          index := index df;
          columns := map (fun c => (c, values_or_missing df c)) target |}
  else Raise ValueError.

(** [df.rename(columns=d)]: labels that are keys of [d] are replaced,
    the others are kept. *)
Definition rename_label (d : list (string * string)) (c : string) : string :=
  match assoc c d with
  | Some c' => c'
  | None => c
  end.

Definition rename_columns (df : frame) (d : list (string * string)) : frame :=
  {| index_name := index_name df;
     index := index df;
     columns := map (fun col => (rename_label d (fst col), snd col)) (columns df) |}.

(** [df[keys]]: for each key every column carrying that label, in key
    order; a key that labels no column is a [KeyError]. *)
Fixpoint select_columns (cols : list column) (keys : list string)
  : result (list column) :=
  match keys with
  | [] => Ok []
  | k :: ks =>
      match filter (named k) cols with
      | [] => Raise KeyError
      | found => rest <- select_columns cols ks ;; Ok (found ++ rest)
      end
  end.

Definition getitem_list (df : frame) (keys : list string) : result frame :=
  cols <- select_columns (columns df) keys ;;
  Ok {| index_name := index_name df; index := index df; columns := cols |}.

(** [df[label]] as numpy sees it: the values under that label (all of
    them when the label repeats). *)
Definition getitem_values (df : frame) (label : string) : result (list cell) :=
  match filter (named label) (columns df) with
  | [] => Raise KeyError
  | found => Ok (flat_map snd found)
  end.

(** [df.set_index(label)] *)
Definition set_index (df : frame) (label : string) : result frame :=
  match filter (named label) (columns df) with
  | [] => Raise KeyError
  | [(_, keys)] =>
      Ok {| index_name := Some label;
            index := keys;
            columns := filter (fun col => negb (named label col)) (columns df) |}
  | _ => Raise ValueError
  end.

(** [df.loc[:, df.columns != label]] *)
Definition drop_label (df : frame) (label : string) : frame :=
  {| index_name := index_name df;
     index := index df;
     columns := filter (fun col => negb (named label col)) (columns df) |}.

Definition opt_str_eqb (a b : option string) : bool :=
  match a, b with
  | Some x, Some y => String.eqb x y
  | None, None => true
  | _, _ => false
  end.

Fixpoint dedup (l : list string) : list string :=
  match l with
  | [] => []
  | x :: l' => x :: filter (fun y => negb (String.eqb x y)) (dedup l')
  end.

(** [pd.concat([a, b])]: rows of [b] under the rows of [a].  Frames with
    the same label list are stacked position by position; otherwise the
    labels are united in order of first appearance, which needs them
    unique on both sides. *)
Definition concat (a b : frame) : result frame :=
  let idx_name := if opt_str_eqb (index_name a) (index_name b)
                  then index_name a else None in
  if strs_eqb (names a) (names b) then
    Ok {| index_name := idx_name;
          index := index a ++ index b;
          columns := map (fun p => (fst (fst p), snd (fst p) ++ snd (snd p)))
                         (combine (columns a) (columns b)) |}
  else if nodupb (names a) && nodupb (names b) then
    Ok {| index_name := idx_name;
          index := index a ++ index b;
          columns := map (fun c => (c, values_or_missing a c ++ values_or_missing b c))
                         (dedup (names a ++ names b)) |}
  else Raise ValueError.

(** ** Outer join on the row index *)

Fixpoint insert_key (k : cell) (l : list cell) : list cell :=
  match l with
  | [] => [k]
  | x :: l' =>
      if cell_eqb k x then l
      else if cell_leb k x then k :: l
      else x :: insert_key k l'
  end.

(** The distinct keys, sorted. *)
Definition sorted_keys (l : list cell) : list cell := fold_right insert_key [] l.

Fixpoint positions_from (k : cell) (l : list cell) (i : nat) : list nat :=
  match l with
  | [] => []
  | x :: l' =>
      if cell_eqb k x then i :: positions_from k l' (S i)
      else positions_from k l' (S i)
  end.

Definition positions (k : cell) (l : list cell) : list nat := positions_from k l 0.

(** A row of the join: its key and the row it takes from each side. *)
Definition join_row : Type := cell * option nat * option nat.

Definition join_rows (k : cell) (li ri : list nat) : list join_row :=
  match li, ri with
  | [], _ => map (fun j => (k, None, Some j)) ri
  | _, [] => map (fun i => (k, Some i, None)) li
  | _, _ => flat_map (fun i => map (fun j => (k, Some i, Some j)) ri) li
  end.

Definition join_plan (lk rk : list cell) : list join_row :=
  flat_map (fun k => join_rows k (positions k lk) (positions k rk))
           (sorted_keys (lk ++ rk)).

Definition take_row (v : list cell) (i : option nat) : cell :=
  match i with
  | Some i => nth i v NaN
  | None => NaN
  end.

(** [l.merge(r, how='outer', left_index=True, right_index=True, sort=True)]:
    one row per pair of rows sharing a key, one row for each row whose
    key the other side lacks, keys sorted; a label present on both sides
    gets the suffix [_x] on the left and [_y] on the right. *)
Definition merge_outer (l r : frame) : frame :=
  let plan := join_plan (index l) (index r) in
  {| index_name := if opt_str_eqb (index_name l) (index_name r)
                   then index_name l else None;
     index := map (fun p => fst (fst p)) plan;
     columns :=
       map (fun col => (if str_mem (fst col) (names r) then (fst col ++ "_x")%string else fst col,
                        map (fun p => take_row (snd col) (snd (fst p))) plan))
           (columns l)
       ++
       map (fun col => (if str_mem (fst col) (names l) then (fst col ++ "_y")%string else fst col,
                        map (fun p => take_row (snd col) (snd p)) plan))
           (columns r) |}.

End Pandas.

Export Pandas.

(* ===================================================================== *)
(** * The processing engine *)
(* ===================================================================== *)

Module Engine.

Local Open Scope list_scope.

(** ** Configuration and run state *)

(** The final headers to use, grouped by site name. *)
Definition final_headers : list (string * list string) :=
  [ ("NF17",
     ["TIMESTAMP"; "RECORD";
      "Ux_CSAT3_NF17"; "Uy_CSAT3_NF17"; "Uz_CSAT3_NF17"; "Ts_CSAT3_NF17";
      "Ux_CSAT3_NF7"; "Uy_CSAT3_NF7"; "Uz_CSAT3_NF7"; "Ts_CSAT3_NF7";
      "CO2_LI7500_NF17"; "H2O_LI7500_NF17"; "PCELL_LI7500_NF17"; "TCELL_LI7500_NF17";
      "DIAG_CSAT3_NF17"; "flag_CSAT3_NF17"; "DIAG_CSAT3_NF7"; "flag_CSAT3_NF7";
      "DIAG_LI7500_NF17"]);
    ("NF3",
     ["TIMESTAMP"; "RECORD";
      "Ux_CSAT3B_NF3"; "Uy_CSAT3B_NF3"; "Uz_CSAT3B_NF3"; "Ts_CSAT3B_NF3";
      "CO2_LI7500_NF3"; "H2O_LI7500_NF3"; "PCELL_LI7500_NF3"; "TCELL_LI7500_NF3";
      "DIAG_CSAT3B_NF3"; "flag_CSAT3B_NF3"; "DIAG_LI7500_NF3"]);
    ("SF4",
     ["TIMESTAMP"; "RECORD";
      "Ux_SON_SF4"; "Uy_SON_SF4"; "Uz_SON_SF4"; "Ts_SON_SF4";
      "CO2_IRGA_SF4"; "H2O_IRGA_SF4"; "PCELL_IRGA_SF4"; "TCELL_IRGA_SF4";
      "DIAG_SON_SF4"; "flag_SON_SF4"; "DIAG_IRGA_SF4"]);
    ("SF7",
     ["TIMESTAMP"; "RECORD";
      "Ux_CSAT3B_SF7"; "Uy_CSAT3B_SF7"; "Uz_CSAT3B_SF7"; "Ts_CSAT3B_SF7";
      "CO2_LI7500_SF7"; "H2O_LI7500_SF7"; "PCELL_LI7500_SF7"; "TCELL_LI7500_SF7";
      "DIAG_CSAT3B_SF7"; "flag_CSAT3B_SF7"; "DIAG_LI7500_SF7"]);
    ("UF3",
     ["TIMESTAMP"; "RECORD";
      "Ux_SON_UF3"; "Uy_SON_UF3"; "Uz_SON_UF3"; "Ts_SON_UF3";
      "CO2_IRGA_UF3"; "H2O_IRGA_UF3"; "PCELL_IRGA_UF3"; "TCELL_IRGA_UF3";
      "DIAG_SON_UF3"; "flag_SON_UF3"; "DIAG_IRGA_UF3"]) ].

(** An entry of the raw-file metadata table (an object column). *)
Inductive obj : Type :=
| OStr (s : string)
| OPath (p : option string)
| OTs (t : Timestamp).

Record meta_table : Type := MetaTable {
  meta_columns : list string;
  meta_rows : list (list obj)
}.

(** A file reference: a path, or [None] where [get_fn_from_timestamp]
    found no file. *)
Definition path : Type := option string.

(** One entry of [self.site_info]. *)
Record site_rec : Type := SiteRec {
  fns : list path;
  file_tss : list Timestamp;
  converted_path : string;
  n_files_converted : nat;
  rawfile_metadata : meta_table;
  final_header : list string;
  fns_temp : list path;
  file_tss_temp : list Timestamp
}.


(** A summary statistic in exact arithmetic: undefined ([nan]), a
    rational, the square root of a rational, or an infinity. *)
Inductive stat : Type :=
| SNaN
| SRat (q : Q)
| SSqrt (q : Q)
| SInf (negative : bool).

(** A four-dimensional float array: its shape and the cells written so
    far, most recent first; a cell never written holds [nan]. *)
Record ndarray : Type := NdArray {
  shape : nat * nat * nat * nat;
  written : list ((nat * nat * nat * nat) * stat)
}.

(** [self.summary]: the array with its coordinates. *)
Record dataset : Type := Dataset {
  data : ndarray;
  data_vars : list string;
  coord_TIMESTAMP : list Timestamp;
  coord_STAT : list string;
  coord_SITE : list string
}.

Record engine : Type := EngineState {
  site_info : list (string * site_rec);
  start_time : Timestamp;
  end_time : Timestamp;
  acq_freq : Z;
  acq_period : Z;
  file_length : Z;
  n_records : Z;
  out_path : string;
  desired_file_tss : list Timestamp;
  summary : option dataset
}.

(** The content of a raw file: its first line as [readline] returns it,
    and the table the CSV reader builds from the rest ([None] when the
    reader rejects the file); the [TIMESTAMP] column holds timestamps. *)
Record raw_file : Type := RawFile {
  first_line : string;
  table : option frame
}.

(** The file system the run reads: names found in a directory, and the
    content of a path. *)
Record env : Type := Env {
  listdir : string -> list string;
  open_file : string -> option raw_file
}.

(** The engine together with the output files written so far (path and
    emitted columns), oldest first. *)
Record world : Type := World {
  self : engine;
  disk : list (string * list column)
}.

Definition empty_meta : meta_table := MetaTable [] [].

(** [__init__], without the directory checks and prompts. *)
Fixpoint make_site_info (pairs : list (string * string))
  (acc : list (string * site_rec)) : result (list (string * site_rec)) :=
  match pairs with
  | [] => Ok acc
  | (site, converted_dir) :: rest =>
      header <- dict_get final_headers site ;;
      make_site_info rest
        (dict_set acc site
           (SiteRec [] [] converted_dir 0 empty_meta header [] []))
  end.

Definition init (converted_dirs : list string) (file_length acq_freq : Z)
  (start_time end_time : Timestamp) (site_names : list string) (out_dir : string)
  : result engine :=
  info <- make_site_info (combine site_names converted_dirs) [] ;;
  Ok {| site_info := info;
        start_time := start_time;
        end_time := end_time;
        acq_freq := acq_freq;
        acq_period := Timedelta_ms (1000 / acq_freq);
        file_length := file_length;
        n_records := file_length * acq_freq * 60;
        out_path := out_dir;
        desired_file_tss := [];
        summary := None |}.

Definition set_site_info (e : engine) (info : list (string * site_rec)) : engine :=
  {| site_info := info;
     start_time := start_time e;
     end_time := end_time e;
     acq_freq := acq_freq e;
     acq_period := acq_period e;
     file_length := file_length e;
     n_records := n_records e;
     out_path := out_path e;
     desired_file_tss := desired_file_tss e;
     summary := summary e |}.

Definition set_site (e : engine) (site : string) (r : site_rec) : engine :=
  set_site_info e (dict_set (site_info e) site r).

Definition set_desired_file_tss (e : engine) (l : list Timestamp) : engine :=
  {| site_info := site_info e;
     start_time := start_time e;
     end_time := end_time e;
     acq_freq := acq_freq e;
     acq_period := acq_period e;
     file_length := file_length e;
     n_records := n_records e;
     out_path := out_path e;
     desired_file_tss := l;
     summary := summary e |}.


Definition set_found (r : site_rec) (f : list path) (t : list Timestamp) : site_rec :=
  SiteRec f t (converted_path r) (List.length t) (rawfile_metadata r)
          (final_header r) (fns_temp r) (file_tss_temp r).

Definition set_metadata (r : site_rec) (m : meta_table) : site_rec :=
  SiteRec (fns r) (file_tss r) (converted_path r) (n_files_converted r) m
          (final_header r) (fns_temp r) (file_tss_temp r).

Definition set_temp (r : site_rec) (f : list path) (t : list Timestamp) : site_rec :=
  SiteRec (fns r) (file_tss r) (converted_path r) (n_files_converted r)
          (rawfile_metadata r) (final_header r) f t.

(** ** File index *)

Definition is_separator (c : ascii) : bool := lit "_" c || lit "." c.

(** [Path(fn).name]: the last component of the path *)
Definition path_name (fn : string) : string :=
  match rev (str_split "/" fn) with
  | n :: _ => n
  | [] => fn
  end.

(** Given a raw, converted file, extract the timestamp given in its
    name. *)
Definition get_timestamp_from_fn (fn : string) : result datetime :=
  file_id <- list_get (str_split "Hz" (path_name fn)) 1 ;;
  let file_start_str := str_join (slice_1_m1 (re_split_chars is_separator file_id)) in
  to_datetime_YmdHM file_start_str.

(** Given a timestamp, find the file name it is associated with: the
    first of the site's files whose path contains the rendered stamp. *)
Definition file_start_str (t : Timestamp) : string :=
  (fmt_d 4 (year t) ++ "_" ++ fmt_d 2 (month t) ++ "_" ++ fmt_d 2 (day t) ++ "_"
   ++ fmt_d 2 (hour t) ++ fmt_d 2 (minute t))%string.

Definition get_fn_from_timestamp (site_fns : list string) (t : Timestamp) : path :=
  find (str_contains (file_start_str t)) site_fns.

Fixpoint str_suffix_from (suffix s : string) : bool :=
  String.eqb suffix s ||
  match s with
  | EmptyString => false
  | String _ s' => str_suffix_from suffix s'
  end.

(** [glob('TOA5*.dat')] on a file name *)
Definition glob_TOA5_dat (name : string) : bool :=
  str_prefix "TOA5" name && str_suffix_from ".dat" (str_drop 4 name).

Fixpoint insert_sorted (t : Z) (l : list Z) : list Z :=
  match l with
  | [] => [t]
  | x :: l' => if t <=? x then t :: l else x :: insert_sorted t l'
  end.

(** [sorted(l)] *)
Definition sorted (l : list Z) : list Z := fold_right insert_sorted [] l.

(** The raw-file timestamps of the files lying in the requested window;
    a name that does not parse stops the scan with its exception, and a
    name that parses to [NaT] compares false and is skipped.  (The source
    parses a kept name a second time to append it; parsing is pure.) *)
Fixpoint collect_file_tss (start stop : Timestamp) (l : list string)
  : result (list Timestamp) :=
  match l with
  | [] => Ok []
  | fn :: rest =>
      fts <- get_timestamp_from_fn fn ;;
      tss <- collect_file_tss start stop rest ;;
      match fts with
      | TS t => if (start <=? t) && (t <=? stop) then Ok (t :: tss) else Ok tss
      | NaT => Ok tss
      end
  end.

Definition find_site_files (e : env) (start stop : Timestamp) (r : site_rec)
  : result site_rec :=
  let found := map (fun n => (converted_path r ++ "/" ++ n)%string)
                   (filter glob_TOA5_dat (listdir e (converted_path r))) in
  tss <- collect_file_tss start stop found ;;
  let tss := sorted tss in
  Ok (set_found r (map (get_fn_from_timestamp found) tss) tss).

Fixpoint find_sites (e : env) (start stop : Timestamp) (sites : list string)
  (s : engine) : result engine :=
  match sites with
  | [] => Ok s
  | site :: rest =>
      r <- dict_get (site_info s) site ;;
      r' <- find_site_files e start stop r ;;
      find_sites e start stop rest (set_site s site r')
  end.

(** Find all the raw data files that the user wants to process and place
    them in the site info, ordered by timestamp. *)
Definition find_fast_files (e : env) (s : engine) : result engine :=
  let grid := date_range_to (start_time s) (end_time s)
                            (Timedelta_min (file_length s)) in
  let s := set_desired_file_tss s grid in
  _ <- list_get grid 0 ;;
  find_sites e (start_time s) (end_time s) (dict_keys (site_info s)) s.

(** ** Placeholder frame and schema harmonizer *)

(** Make an empty fast file to indicate missing data: two entries in the
    given time period with the proper header, populated by nans. *)
Definition make_empty (s : engine) (fts : Timestamp) (site : string) : result frame :=
  let stamps := frame_of_timestamps "TIMESTAMP"
                  (date_range_periods (fts + acq_period s) 2 (Timedelta_ms 100)) in
  r <- dict_get (site_info s) site ;;
  df <- reindex_columns stamps (final_header r) ;;
  set_index df "TIMESTAMP".

(** What the branches of [reorder_headers] leave behind for a site and a
    file date: the columns to add and the renaming scheme, a maintenance
    day, or nothing at all (no branch assigned [cols_to_add]). *)
Inductive header_rule : Type :=
| Rule (cols_to_add : list string) (renaming_dict : list (string * string))
| Maintenance
| Unbound.

Definition d_2019_05_19 : Timestamp := midnight 2019 5 19.
Definition d_2100_11_19 : Timestamp := midnight 2100 11 19.
Definition d_2019_02_13 : Timestamp := midnight 2019 2 13.

Definition select_rule (site : string) (d : Z) : header_rule :=
  if String.eqb site "NF17" then
    if date_lt d d_2019_05_19 then
      Rule ["PCELL_LI7500_NF17"; "DIAG_CSAT3_NF17"; "DIAG_CSAT3_NF7";
            "flag_CSAT3_NF17"; "flag_CSAT3_NF7"; "TCELL_LI7500_NF17"]
           [("Ux_CSAT3_17m", "Ux_CSAT3_NF17");
            ("Uy_CSAT3_17m", "Uy_CSAT3_NF17");
            ("Uz_CSAT3_17m", "Uz_CSAT3_NF17");
            ("Ts_CSAT3_17m", "Ts_CSAT3_NF17");
            ("Ux_CSAT3_7m", "Ux_CSAT3_NF7");
            ("Uy_CSAT3_7m", "Uy_CSAT3_NF7");
            ("Uz_CSAT3_7m", "Uz_CSAT3_NF7");
            ("Ts_CSAT3_7m", "Ts_CSAT3_NF7");
            ("rho_c_LI7500", "CO2_LI7500_NF17");
            ("rho_v_LI7500", "H2O_LI7500_NF17");
            ("DIAG_LI7500", "DIAG_LI7500_NF17")]
    else if date_gt d d_2019_05_19 then
      Rule ["DIAG_CSAT3_NF17"; "DIAG_CSAT3_NF7"; "flag_CSAT3_NF17";
            "flag_CSAT3_NF7"; "TCELL_LI7500_NF17"]
           [("Ux_CSAT3_17m", "Ux_CSAT3_NF17");
            ("Uy_CSAT3_17m", "Uy_CSAT3_NF17");
            ("Uz_CSAT3_17m", "Uz_CSAT3_NF17");
            ("Ts_CSAT3_17m", "Ts_CSAT3_NF17");
            ("Ux_CSAT3_7m", "Ux_CSAT3_NF7");
            ("Uy_CSAT3_7m", "Uy_CSAT3_NF7");
            ("Uz_CSAT3_7m", "Uz_CSAT3_NF7");
            ("Ts_CSAT3_7m", "Ts_CSAT3_NF7");
            ("rho_c_LI7500", "CO2_LI7500_NF17");
            ("rho_v_LI7500", "H2O_LI7500_NF17");
            ("P_LI7500", "PCELL_LI7500_NF17");
            ("DIAG_LI7500", "DIAG_LI7500_NF17")]
    else if date_eq d d_2019_05_19 then Maintenance
    else Unbound
  else if String.eqb site "NF3" then
    if date_lt d d_2019_05_19 then
      Rule ["PCELL_LI7500_NF3"; "TCELL_LI7500_NF3"; "flag_CSAT3B_NF3"]
           [("Ux_CSAT3B", "Ux_CSAT3B_NF3");
            ("Uy_CSAT3B", "Uy_CSAT3B_NF3");
            ("Uz_CSAT3B", "Uz_CSAT3B_NF3");
            ("Ts_CSAT3B", "Ts_CSAT3B_NF3");
            ("rho_c_LI7500", "CO2_LI7500_NF3");
            ("rho_cv_LI7500", "H2O_LI7500_NF3");
            ("DIAG_CSAT3B", "DIAG_CSAT3B_NF3");
            ("DIAG_LI7500", "DIAG_LI7500_NF3")]
    else if date_gt d d_2019_05_19 then
      Rule ["DIAG_CSAT3B_NF3"; "flag_CSAT3B_NF3"; "TCELL_LI7500_NF3"]
           [("Ux_CSAT3B", "Ux_CSAT3B_NF3");
            ("Uy_CSAT3B", "Uy_CSAT3B_NF3");
            ("Uz_CSAT3B", "Uz_CSAT3B_NF3");
            ("Ts_CSAT3B", "Ts_CSAT3B_NF3");
            ("rho_c_LI7500", "CO2_LI7500_NF3");
            ("rho_v_LI7500", "H2O_LI7500_NF3");
            ("P_LI7500", "PCELL_LI7500_NF3");
            ("DIAG_LI7500", "DIAG_LI7500_NF3")]
    else if date_eq d d_2019_05_19 then Maintenance
    else Unbound
  else if String.eqb site "SF4" then
    if date_lt d d_2100_11_19 then
      Rule ["flag_SON_SF4"]
           [("Ux", "Ux_SON_SF4");
            ("Uy", "Uy_SON_SF4");
            ("Uz", "Uz_SON_SF4");
            ("Ts", "Ts_SON_SF4");
            ("diag_sonic", "DIAG_SON_SF4");
            ("CO2", "CO2_IRGA_SF4");
            ("H2O", "H2O_IRGA_SF4");
            ("diag_irga", "DIAG_IRGA_SF4");
            ("cell_tmpr", "TCELL_IRGA_SF4");
            ("cell_press", "PCELL_IRGA_SF4")]
    else Unbound
  else if String.eqb site "SF7" then
    if date_lt d d_2019_05_19 then
      Rule ["PCELL_LI7500_SF7"; "TCELL_LI7500_SF7"; "flag_CSAT3B_SF7"]
           [("Ux_CSAT3B", "Ux_CSAT3B_SF7");
            ("Uy_CSAT3B", "Uy_CSAT3B_SF7");
            ("Uz_CSAT3B", "Uz_CSAT3B_SF7");
            ("Ts_CSAT3B", "Ts_CSAT3B_SF7");
            ("rho_c_LI7500", "CO2_LI7500_SF7");
            ("rho_v_LI7500", "H2O_LI7500_SF7");
            ("DIAG_CSAT3B", "DIAG_CSAT3B_SF7");
            ("DIAG_LI7500", "DIAG_LI7500_SF7")]
    else if date_gt d d_2019_05_19 then
      Rule ["DIAG_CSAT3B_SF7"; "flag_CSAT3B_SF7"; "TCELL_LI7500_SF7"]
           [("Ux_CSAT3B", "Ux_CSAT3B_SF7");
            ("Uy_CSAT3B", "Uy_CSAT3B_SF7");
            ("Uz_CSAT3B", "Uz_CSAT3B_SF7");
            ("Ts_CSAT3B", "Ts_CSAT3B_SF7");
            ("rho_c_LI7500", "CO2_LI7500_SF7");
            ("rho_v_LI7500", "H2O_LI7500_SF7");
            ("P_LI7500", "PCELL_LI7500_SF7");
            ("DIAG_LI7500", "DIAG_LI7500_SF7")]
    else if date_eq d d_2019_05_19 then Maintenance
    else Unbound
  else if String.eqb site "UF3" then
    if date_gt d d_2019_02_13 then
      Rule ["flag_SON_UF3"]
           [("Ux", "Ux_SON_UF3");
            ("Uy", "Uy_SON_UF3");
            ("Uz", "Uz_SON_UF3");
            ("Ts", "Ts_SON_UF3");
            ("diag_sonic", "DIAG_SON_UF3");
            ("CO2", "CO2_IRGA_UF3");
            ("H2O", "H2O_IRGA_UF3");
            ("diag_irga", "DIAG_IRGA_UF3");
            ("cell_tmpr", "TCELL_IRGA_UF3");
            ("cell_press", "PCELL_IRGA_UF3")]
    else Unbound
  else Unbound.

(** Rearrange the dataframe to fit into the standard-order header, given
    the site name and the file date. *)
Definition reorder_headers (s : engine) (site : string) (fts : Timestamp) (df : frame)
  : result frame :=
  match select_rule site (date fts) with
  | Maintenance => make_empty s fts site
  | Unbound =>
      _ <- dict_get (site_info s) site ;;
      Raise UnboundLocalError
  | Rule cols_to_add renaming_dict =>
      r <- dict_get (site_info s) site ;;
      let new_order := final_header r in
      df <- reindex_columns df (names df ++ cols_to_add) ;;
      let df := rename_columns df renaming_dict in
      getitem_list df new_order
  end.

(** ** Diagnostic decoder *)

(** The Python values the diagnostic lambdas meet: [df.assign] calls a
    callable with the frame itself. *)
Inductive pyval : Type :=
| PInt (z : Z)
| PBool (b : bool)
| PFrame (f : frame).

(** [x >> n]: a frame has no right-shift operator *)
Definition py_rshift (x : pyval) (n : Z) : result pyval :=
  match x with
  | PInt z => Ok (PInt (Z.shiftr z n))
  | PBool b => Ok (PInt (Z.shiftr (Z.b2z b) n))
  | PFrame _ => Raise TypeError
  end.

(** [x & m]: on a frame the operator works cell by cell and rejects a
    column that is not of integer type, as is one holding a missing
    value. *)
Definition py_and (x : pyval) (m : Z) : result pyval :=
  match x with
  | PInt z => Ok (PInt (Z.land z m))
  | PBool b => Ok (PInt (Z.land (Z.b2z b) m))
  | PFrame f =>
      if existsb (fun col => existsb is_missing (snd col)) (columns f)
      then Raise TypeError
      else Ok (PFrame {| index_name := index_name f;
                         index := index f;
                         columns := map (fun col =>
                                           (fst col,
                                            map (fun c => match c with
                                                          | Val v => Val (Z.land v m)
                                                          | NaN => NaN
                                                          end) (snd col)))
                                        (columns f) |})
  end.

(** [bool(x)]: the truth value of a frame is ambiguous *)
Definition py_bool (x : pyval) : result pyval :=
  match x with
  | PInt z => Ok (PBool (negb (z =? 0)))
  | PBool b => Ok (PBool b)
  | PFrame _ => Raise ValueError
  end.

(** [int(x)] *)
Definition py_int (x : pyval) : result pyval :=
  match x with
  | PInt z => Ok (PInt z)
  | PBool b => Ok (PInt (Z.b2z b))
  | PFrame _ => Raise TypeError
  end.

Definition diag_lambda : Type := pyval -> result pyval.

(** How to process diagnostic bits for each instrument. *)
Definition diag_dict (site : string) : list (string * (string * diag_lambda)) :=
  [ ("CSAT3", (("flag_CSAT3_" ++ site)%string,
               fun x => y <- py_rshift x 12 ;; b <- py_bool y ;; py_int b));
    ("CSAT3B", (("flag_CSAT3B_" ++ site)%string,
                fun x => y <- py_and x 351 ;; b <- py_bool y ;; py_int b));
    ("IRGA", (("flag_IRGA_" ++ site)%string,
              fun x => b <- py_bool x ;; py_int b));
    ("SON", (("flag_SON_" ++ site)%string,
             fun x => b <- py_bool x ;; py_int b)) ].

(** [df[label] = scalar]: every column with that label is overwritten,
    or a new last column is added. *)
Definition set_scalar_column (df : frame) (label : string) (v : cell) : frame :=
  {| index_name := index_name df;
     index := index df;
     columns :=
       if str_mem label (names df)
       then map (fun col => if named label col
                            then (fst col, repeat v (nrows df)) else col) (columns df)
       else columns df ++ [(label, repeat v (nrows df))] |}.

(** [df.assign] with one keyword [label = f]: [f] is computed on the
    frame and the result assigned to the column. *)
Definition assign (df : frame) (kw : string * diag_lambda) : result frame :=
  v <- snd kw (PFrame df) ;;
  match v with
  | PInt z => Ok (set_scalar_column df (fst kw) (Val z))
  | PBool b => Ok (set_scalar_column df (fst kw) (Val (Z.b2z b)))
  | PFrame _ => Raise ValueError
  end.

(** [pd.DataFrame.assign()]: the method called on the class, without a
    frame to act on. *)
Definition DataFrame_assign_no_self : result frame := Raise TypeError.

Definition diag_patterns : list string :=
  ["DIAG_CSAT3_"; "DIAG_CSAT3B"; "DIAG_IRGA"; "DIAG_SON"].

Fixpoint diagnostics_loop (site : string) (labels : list string) (df : frame)
  : result frame :=
  match labels with
  | [] => Ok df
  | colname :: rest =>
      match re_search_alts diag_patterns colname with
      | Some m =>
          let instr := str_drop 5 m in
          let instr := if String.eqb instr "CSAT3_" then "CSAT3" else instr in
          kw <- dict_get (diag_dict site) instr ;;
          df <- assign df kw ;;
          _ <- DataFrame_assign_no_self ;;
          diagnostics_loop site rest df
      | None => diagnostics_loop site rest df
      end
  end.

(** Search a dataframe for diagnostic columns and turn them into
    boolean flags. *)
Definition process_diagnostics (df : frame) (site : string) : result frame :=
  diagnostics_loop site (names df) df.

(** ** Reading one raw file *)

Definition open_path (e : env) (fn : path) : result raw_file :=
  match fn with
  | None => Raise TypeError
  | Some p =>
      match open_file e p with
      | Some f => Ok f
      | None => Raise FileNotFoundError
      end
  end.

Definition read_csv (e : env) (fn : path) : result frame :=
  f <- open_path e fn ;;
  match table f with
  | Some t => Ok t
  | None => Raise ArrowInvalid
  end.

(** [rawdat['TIMESTAMP'] = pd.to_datetime(rawdat['TIMESTAMP'], ...)]:
    the column must be there, once; its cells already are timestamps. *)
Definition convert_timestamps (df : frame) : result frame :=
  match filter (named "TIMESTAMP") (columns df) with
  | [] => Raise KeyError
  | [_] => Ok df
  | _ => Raise ValueError
  end.

(** Read in a single raw file and return a formatted version. *)
Definition process_file (e : env) (s : engine) (fn : path) (site : string)
  (ts : Timestamp) : result frame :=
  rawdat <- read_csv e fn ;;
  rawdat <- convert_timestamps rawdat ;;
  rawdat <- process_diagnostics rawdat site ;;
  rawdat <- reorder_headers s site ts rawdat ;;
  rawdat <- set_index rawdat "TIMESTAMP" ;;
  Ok (drop_label rawdat "RECORD").

(** ** Raw-file metadata *)

Definition metadata_columns : list string :=
  ["output_timestamp"; "output_name"; "input_timestamp"; "input_name";
   "Encoding"; "Station_name"; "Datalogger_model"; "Datalogger_serial_number";
   "Datalogger_OS_version"; "Datalogger_program_name";
   "Datalogger_program_signature"; "Table_name"].

(** Create a blank template to store raw TOA5 file metadata in. *)
Definition metadata_template (s : engine) : engine :=
  set_site_info s
    (map (fun kv =>
            (fst kv,
             set_metadata (snd kv)
               (MetaTable metadata_columns
                  (repeat (repeat (OStr "none") 12) (n_files_converted (snd kv))))))
         (site_info s)).

Fixpoint list_set {A : Type} (l : list A) (i : nat) (a : A) : list A :=
  match l, i with
  | [], _ => []
  | _ :: l', O => a :: l'
  | x :: l', S k => x :: list_set l' k a
  end.

(** [table.iloc[i] = row]: the row must exist and [row] must have one
    entry per column. *)
Definition iloc_set (m : meta_table) (i : nat) (row : list obj) : result meta_table :=
  if (i <? List.length (meta_rows m))%nat then
    if (List.length row =? List.length (meta_columns m))%nat
    then Ok (MetaTable (meta_columns m) (list_set (meta_rows m) i row))
    else Raise ValueError
  else Raise IndexError.

(** [s[1:-1]] *)
Definition str_slice_1_m1 (s : string) : string := str_drop_last 1 (str_drop 1 s).

Definition dquote : ascii := ascii_of_nat 34.

(** The separator between two quoted fields: quote, comma, quote. *)
Definition quote_comma_quote : string :=
  String dquote (String "," (String dquote EmptyString)).

Definition metadata_row (dfts : Timestamp) (desired_fn : string) (ts : Timestamp)
  (fn : path) (line : string) : list obj :=
  [OTs dfts; OPath (Some desired_fn); OTs ts; OPath fn]
  ++ map OStr (str_split quote_comma_quote (str_slice_1_m1 line)).

Definition update_metadata (e : env) (s : engine) (dfts : Timestamp)
  (desired_fn : string) (ts : Timestamp) (fn : path) (site : string)
  (ifile : list (string * nat)) : result (engine * list (string * nat)) :=
  f <- open_path e fn ;;
  let row := metadata_row dfts desired_fn ts fn (first_line f) in
  r <- dict_get (site_info s) site ;;
  i <- dict_get ifile site ;;
  m <- iloc_set (rawfile_metadata r) i row ;;
  let s := set_site s site (set_metadata r m) in
  i <- dict_get ifile site ;;
  Ok (s, dict_set ifile site (S i)).

(** ** One output interval across all sites *)

(** The output file name: yyyy-mm-dd hh:MM --> yyyy_mm_dd_hh:MM -->
    yyyy_mm_dd_hhMM *)
Definition desired_fn_of (s : engine) (dfts : Timestamp) : string :=
  let dfts_str := re_sub_chars (fun c => lit "-" c || lit " " c) "_"
                               (str_Timestamp dfts) in
  let dfts_str := str_drop_last 2 (re_sub_chars (lit ":") EmptyString dfts_str) in
  (out_path s ++ "/" ++ dfts_str ++ ".csv")%string.

(** Pop the files of the queue whose timestamp lies before
    [next_file_ts]; an emptied list raises the [IndexError] that ends
    the search. *)
Fixpoint next_files (next_file_ts : Timestamp)
  (fns_temp : list path) (tss_temp : list Timestamp)
  (next_fns : list path) (next_file_tss : list Timestamp) {struct tss_temp}
  : (list path * list Timestamp) * (list path * list Timestamp) :=
  match tss_temp with
  | [] => ((fns_temp, tss_temp), (next_fns, next_file_tss))
  | t :: tss' =>
      if t <? next_file_ts then
        match fns_temp with
        | [] => ((fns_temp, tss_temp), (next_fns, next_file_tss))
        | fn :: fns' =>
            next_files next_file_ts fns' tss' (next_fns ++ [fn]) (next_file_tss ++ [t])
        end
      else ((fns_temp, tss_temp), (next_fns, next_file_tss))
  end.

Definition ifile_t : Type := list (string * nat).

(** Combine the qualified files into one dataframe and record the
    metadata of each; [rawdat] is [None] until the first file is in. *)
Fixpoint read_files (e : env) (s : engine) (site : string) (dfts : Timestamp)
  (desired_fn : string) (files : list (path * Timestamp)) (rawdat : option frame)
  (ifile : ifile_t) : result (option frame * engine * ifile_t) :=
  match files with
  | [] => Ok (rawdat, s, ifile)
  | (fn, ts) :: rest =>
      rawdat_tmp <- process_file e s fn site ts ;;
      rawdat <- match rawdat with
                | None => Ok rawdat_tmp
                | Some r => concat r rawdat_tmp
                end ;;
      ' (s, ifile) <- update_metadata e s dfts desired_fn ts fn site ifile ;;
      read_files e s site dfts desired_fn rest (Some rawdat) ifile
  end.

(** The frame one site contributes to the interval. *)
Definition assemble_site (e : env) (s : engine) (site : string) (dfts : Timestamp)
  (desired_fn : string) (ifile : ifile_t) : result (frame * engine * ifile_t) :=
  let next_file_ts := dfts + Timedelta_min (file_length s) in
  r <- dict_get (site_info s) site ;;
  let popped := next_files next_file_ts (fns_temp r) (file_tss_temp r) [] [] in
  let s := set_site s site (set_temp r (fst (fst popped)) (snd (fst popped))) in
  match fst (snd popped) with
  | [] =>
      rawdat <- make_empty s dfts site ;;
      Ok (drop_label rawdat "RECORD", s, ifile)
  | next_fns =>
      ' (rawdat, s, ifile) <- read_files e s site dfts desired_fn
                                (combine next_fns (snd (snd popped))) None ifile ;;
      match rawdat with
      | Some rawdat => Ok (rawdat, s, ifile)
      | None => Raise UnboundLocalError
      end
  end.

Fixpoint sites_loop (e : env) (dfts : Timestamp) (desired_fn : string)
  (sites : list string) (dat : frame) (s : engine) (ifile : ifile_t)
  : result (frame * engine * ifile_t) :=
  match sites with
  | [] => Ok (dat, s, ifile)
  | site :: rest =>
      ' (rawdat, s, ifile) <- assemble_site e s site dfts desired_fn ifile ;;
      sites_loop e dfts desired_fn rest (merge_outer dat rawdat) s ifile
  end.

(** The dense time index of an interval. *)
Definition desired_time_index (s : engine) (dfts : Timestamp) : list Timestamp :=
  date_range_periods (dfts + acq_period s) (Z.to_nat (n_records s)) (acq_period s).

(** The columns handed to the CSV writer: [dat[dat.columns[1:]]]. *)
Definition emitted_columns (dat : frame) : result (list column) :=
  select_columns (columns dat) (tl (names dat)).

(** Process one timestamp worth of data across multiple sites: read in
    one timestamp worth of data, write one output file, and return the
    merged data. *)
Definition process_interval (e : env) (w : world) (idfts : nat) (dfts : Timestamp)
  (ifile : ifile_t) : result (frame * world * ifile_t) :=
  let s := self w in
  dat <- set_index (frame_of_timestamps "TIMESTAMP" (desired_time_index s dfts))
                   "TIMESTAMP" ;;
  let desired_fn := desired_fn_of s dfts in
  ' (dat, s, ifile) <- sites_loop e dfts desired_fn (dict_keys (site_info s))
                                  dat s ifile ;;
  out <- emitted_columns dat ;;
  Ok (dat, {| self := s; disk := disk w ++ [(desired_fn, out)] |}, ifile).

(** ** Summary statistics *)

Definition summary_cols : list (string * nat) :=
  [("Ux", 0%nat); ("Uy", 1%nat); ("Uz", 2%nat); ("Ts", 3%nat); ("CO2", 4%nat);
   ("H2O", 5%nat); ("PCELL", 6%nat); ("TCELL", 7%nat); ("flag", 8%nat)].

(** The values that are not missing. *)
Definition present (vals : list cell) : list Z :=
  flat_map (fun c => match c with Val v => [v] | NaN => [] end) vals.

Definition zsum (l : list Z) : Z := fold_right Z.add 0 l.

Definition count_Q (l : list Z) : Q := inject_Z (Z.of_nat (List.length l)).

Definition mean_Q (l : list Z) : Q := inject_Z (zsum l) / count_Q l.

Definition nanmean (vals : list cell) : stat :=
  match present vals with
  | [] => SNaN
  | p => SRat (mean_Q p)
  end.

(** [np.nanmax]: a zero-size array has no maximum; an all-missing one
    gives [nan]. *)
Definition nanmax (vals : list cell) : result stat :=
  match vals with
  | [] => Raise ValueError
  | _ => match present vals with
         | [] => Ok SNaN
         | v :: p => Ok (SRat (inject_Z (fold_right Z.max v p)))
         end
  end.

Definition nanmin (vals : list cell) : result stat :=
  match vals with
  | [] => Raise ValueError
  | _ => match present vals with
         | [] => Ok SNaN
         | v :: p => Ok (SRat (inject_Z (fold_right Z.min v p)))
         end
  end.

(** [np.nanstd]: the population standard deviation, the square root of
    the mean squared deviation from the mean; over a common denominator
    that mean is [(n * sum x^2 - (sum x)^2) / n^2]. *)
Definition nanstd (vals : list cell) : stat :=
  match present vals with
  | [] => SNaN
  | p =>
      let n := Z.of_nat (List.length p) in
      SSqrt (inject_Z (n * zsum (map (fun v => v * v) p) - zsum p * zsum p)
             / inject_Z (n * n))
  end.

(** [0*x + 1], cell by cell *)
Definition ones (vals : list cell) : list cell :=
  map (fun c => match c with Val v => Val (0 * v + 1) | NaN => NaN end) vals.

Definition nansum (vals : list cell) : Z := zsum (present vals).

(** [100 - 100*np.nansum(0*x + 1)/n_records]; dividing by a zero
    [n_records] gives an infinity or [nan], not an exception. *)
Definition missing_percent (n_records : Z) (vals : list cell) : stat :=
  let k := nansum (ones vals) in
  if n_records =? 0 then (if k =? 0 then SNaN else SInf true)
  else SRat (100 - 100 * inject_Z k / inject_Z n_records).

Definition idx : Type := (nat * nat * nat * nat)%type.

Definition idx_eqb (a b : idx) : bool :=
  match a, b with
  | (a0, a1, a2, a3), (b0, b1, b2, b3) =>
      (a0 =? b0)%nat && (a1 =? b1)%nat && (a2 =? b2)%nat && (a3 =? b3)%nat
  end.

(** [arr[i0, i1, i2, i3]] *)
Definition arr_get (a : ndarray) (i : idx) : stat :=
  match find (fun kv => idx_eqb (fst kv) i) (written a) with
  | Some kv => snd kv
  | None => SNaN
  end.

(** [arr[i0, :, i2, i3] = vals] *)
Definition arr_set_stats (a : ndarray) (i0 i2 i3 : nat) (vals : list stat)
  : result ndarray :=
  match shape a with
  | (d0, d1, d2, d3) =>
      if (i0 <? d0)%nat && (i2 <? d2)%nat && (i3 <? d3)%nat then
        if (List.length vals =? d1)%nat then
          Ok {| shape := shape a;
                written := map (fun k => ((i0, k, i2, i3), nth k vals SNaN)) (seq 0 d1)
                           ++ written a |}
        else Raise ValueError
      else Raise IndexError
  end.

(** The five statistics of a column, in the order of the STAT axis. *)
Definition column_stats (n_records : Z) (vals : list cell) : result (list stat) :=
  mx <- nanmax vals ;;
  mn <- nanmin vals ;;
  Ok [nanmean vals; mx; mn; nanstd vals; missing_percent n_records vals].

(** The body of the loop of [update_summary] for one column label. *)
Definition summarise_column (s : engine) (dat : frame) (summary_arr : ndarray)
  (summary_sites : list (string * nat)) (idfts : nat) (colname : string)
  : result ndarray :=
  match colname with
  | EmptyString => Raise IndexError
  | String c0 _ =>
      if str_contains (String c0 EmptyString) "UTCHPF" then
        site <- list_last (str_split "_" colname) ;;
        col_id <- list_get (str_split "_" colname) 0 ;;
        vals <- getitem_values dat colname ;;
        stats <- column_stats (n_records s) vals ;;
        isite <- dict_get summary_sites site ;;
        icol <- dict_get summary_cols col_id ;;
        arr_set_stats summary_arr idfts isite icol stats
      else Ok summary_arr
  end.

Fixpoint summary_loop (s : engine) (dat : frame) (summary_sites : list (string * nat))
  (idfts : nat) (labels : list string) (summary_arr : ndarray) : result ndarray :=
  match labels with
  | [] => Ok summary_arr
  | colname :: rest =>
      arr <- summarise_column s dat summary_arr summary_sites idfts colname ;;
      summary_loop s dat summary_sites idfts rest arr
  end.

(** Compute summary statistics for the current timestamp. *)
Definition update_summary (s : engine) (dat : frame) (summary_arr : ndarray)
  (summary_sites : list (string * nat)) (idfts : nat) : result ndarray :=
  summary_loop s dat summary_sites idfts (names dat) summary_arr.

(** ** The whole run *)



Definition copy_queues (s : engine) : engine :=
  set_site_info s
    (map (fun kv => (fst kv, set_temp (snd kv) (fns (snd kv)) (file_tss (snd kv))))
         (site_info s)).


End Engine.

Import Engine.

Unset Implicit Arguments.

(* ===================================================================== *)
(** * Notions used in the statements, and sample runs *)
(* ===================================================================== *)

(** The two-row frame of [make_empty]: rows one acquisition period and
    100 ms further after [fts], every column of the header but the
    timestamp, every cell missing. *)
Definition placeholder (s : engine) (fts : Timestamp) (header : list string) : frame :=
  {| index_name := Some "TIMESTAMP";
     index := [Val (fts + acq_period s); Val (fts + acq_period s + Timedelta_ms 100)];
     columns := map (fun c => (c, [NaN; NaN])) (tl header) |}.

(** An engine as [__init__] leaves it, for sites with their converted
    files under [/data]. *)
Definition sample_engine (sites : list string) (file_length acq_freq : Z)
  (start stop : Timestamp) : engine :=
  match init (map (fun site => "/data/" ++ site) sites) file_length acq_freq
             start stop sites "/out" with
  | Ok s => s
  | Raise _ => EngineState [] start stop acq_freq 0 file_length 0 "/out" [] None
  end.

(** A frame with a sonic diagnostic word per row. *)
Definition sonic_diag_frame : frame :=
  {| index_name := None;
     index := RangeIndex 2;
     columns := [("DIAG_SON", [Val 0; Val 1])] |}.

(** The entry of a site in [self.site_info]. *)
Definition site_rec_of (s : engine) (site : string) : site_rec :=
  match assoc site (site_info s) with
  | Some r => r
  | None => SiteRec [] [] EmptyString 0 empty_meta [] [] []
  end.

Definition t_2020_01_01 : Timestamp := midnight 2020 1 1.
Definition noon_2019_05_19 : Timestamp := midnight 2019 5 19 + 12 * ns_per_hour.

(** The first line of a TOA5 file: quoted fields separated by commas,
    then the end of the line. *)
Definition toa5_first_line (fields : list string) : string :=
  String dquote
    (String.concat quote_comma_quote fields
     ++ String dquote (String (ascii_of_nat 10) EmptyString)).

Definition toa5_fields : list string :=
  ["TOA5"; "SF4"; "CR3000"; "1234"; "CR3000.Std.31"; "CPU:fast.CR3"; "4321"; "fast"].

(** The header of a raw SF4 table. *)
Definition sf4_raw_labels : list string :=
  ["TIMESTAMP"; "RECORD"; "Ux"; "Uy"; "Uz"; "Ts"; "diag_sonic"; "CO2"; "H2O";
   "diag_irga"; "cell_tmpr"; "cell_press"].

(** A raw SF4 table of [n] samples at 10 Hz, the first one 100 ms after
    [t]; the cells in [holes] (label and row) are missing, every other
    reading is present. *)
Definition sf4_table (t : Timestamp) (n : nat) (holes : list (string * nat)) : frame :=
  {| index_name := None;
     index := RangeIndex n;
     columns :=
       map (fun c =>
              (c, map (fun k =>
                         if String.eqb c "TIMESTAMP"
                         then Val (t + (Z.of_nat k + 1) * Timedelta_ms 100)
                         else if existsb (fun h => String.eqb (fst h) c && Nat.eqb (snd h) k)
                                         holes
                              then NaN
                              else Val (Z.of_nat k)) (seq 0 n)))
           sf4_raw_labels |}.

Definition sf4_file_name : string := "TOA5_1234.fast_10Hz_2020_01_01_0000.dat".

(** A file system with one raw file, for site SF4. *)
Definition sf4_env (first : string) (t : frame) : env :=
  {| listdir := fun d => if String.eqb d "/data/SF4" then [sf4_file_name] else [];
     open_file := fun p => if String.eqb p ("/data/SF4/" ++ sf4_file_name)
                           then Some (RawFile first (Some t)) else None |}.

(** A file system without any raw file. *)
Definition empty_env : env :=
  {| listdir := fun _ => []; open_file := fun _ => None |}.

(** One SF4 interval of one minute at 10 Hz, from midnight 2020-01-01. *)
Definition sf4_engine : engine := sample_engine ["SF4"] 1 10 t_2020_01_01 t_2020_01_01.

(** State of the engine once the files are indexed, the metadata tables
    laid out and the queues copied, as [process_fast_files] has it when
    it enters its loop. *)
Definition indexed (e : env) (s : engine) : engine :=
  match find_fast_files e s with
  | Ok s' => copy_queues (metadata_template s')
  | Raise _ => s
  end.

Definition sf4_path : string := "/data/SF4/" ++ sf4_file_name.
Definition sf4_out : string := "/out/2020_01_01_0000.csv".

(** The SF4 run of one file holding one sample. *)
Definition sf4_one_sample (first : string) : env :=
  sf4_env first (sf4_table t_2020_01_01 1 []).

(** A first line of twelve fields. *)
Definition twelve_fields : list string :=
  (toa5_fields ++ ["a"; "b"; "c"; "d"])%list.

(** What [update_metadata] leaves behind when it records a file: the
    record sits in row [i] of the site's table, nothing else moved, and
    the site's counter points at the next row. *)
Definition metadata_recorded (e : env) (s : engine) (dfts ts : Timestamp)
  (desired_fn fn site : string) (ifile : ifile_t) (r : site_rec) (i : nat)
  (fields : list string) : Prop :=
  exists s' ifile' r',
    update_metadata e s dfts desired_fn ts (Some fn) site ifile = Ok (s', ifile') /\
    assoc site (site_info s') = Some r' /\
    nth_error (meta_rows (rawfile_metadata r')) i =
      Some ([OTs dfts; OPath (Some desired_fn); OTs ts; OPath (Some fn)]
            ++ map OStr fields)%list /\
    (forall j, j <> i ->
               nth_error (meta_rows (rawfile_metadata r')) j =
               nth_error (meta_rows (rawfile_metadata r)) j) /\
    List.length (meta_rows (rawfile_metadata r')) =
      List.length (meta_rows (rawfile_metadata r)) /\
    assoc site ifile' = Some (S i) /\
    (forall site', site' <> site ->
                   assoc site' ifile' = assoc site' ifile /\
                   assoc site' (site_info s') = assoc site' (site_info s)).

(** How often a label occurs in a list of labels. *)
Definition occurrences (c : string) (labels : list string) : nat :=
  List.length (filter (String.eqb c) labels).

(** A column once, or twice when its label is among the added ones. *)
Definition twice_if_added (add : list string) (col : column) : list column :=
  if str_mem (fst col) add then [col; col] else [col].

(** An SF4 frame already in canonical form, one row. *)
Definition sf4_canonical : frame :=
  {| index_name := None;
     index := RangeIndex 1;
     columns := [("TIMESTAMP", [Val (t_2020_01_01 + Timedelta_ms 100)]);
                 ("RECORD", [Val 0]);
                 ("Ux_SON_SF4", [Val 1]); ("Uy_SON_SF4", [Val 2]);
                 ("Uz_SON_SF4", [Val 3]); ("Ts_SON_SF4", [Val 4]);
                 ("CO2_IRGA_SF4", [Val 5]); ("H2O_IRGA_SF4", [Val 6]);
                 ("PCELL_IRGA_SF4", [Val 7]); ("TCELL_IRGA_SF4", [Val 8]);
                 ("DIAG_SON_SF4", [Val 0]); ("flag_SON_SF4", [Val 0]);
                 ("DIAG_IRGA_SF4", [Val 0])] |}.

(** The rule of SF4. *)
Definition sf4_cols_to_add : list string := ["flag_SON_SF4"].
Definition sf4_renaming_dict : list (string * string) :=
  [("Ux", "Ux_SON_SF4"); ("Uy", "Uy_SON_SF4"); ("Uz", "Uz_SON_SF4");
   ("Ts", "Ts_SON_SF4"); ("diag_sonic", "DIAG_SON_SF4"); ("CO2", "CO2_IRGA_SF4");
   ("H2O", "H2O_IRGA_SF4"); ("diag_irga", "DIAG_IRGA_SF4");
   ("cell_tmpr", "TCELL_IRGA_SF4"); ("cell_press", "PCELL_IRGA_SF4")].

(** The cell of the summary array a column label is summarised into:
    the index of the site named by its last part and of the variable
    named by its first part; no cell for a label that is skipped. *)
Definition summary_target (summary_sites : list (string * nat)) (colname : string)
  : option (nat * nat) :=
  match colname with
  | EmptyString => None
  | String c0 _ =>
      if str_contains (String c0 EmptyString) "UTCHPF" then
        match list_last (str_split "_" colname), list_get (str_split "_" colname) 0 with
        | Ok site, Ok col_id =>
            match assoc site summary_sites, assoc col_id summary_cols with
            | Some i, Some j => Some (i, j)
            | _, _ => None
            end
        | _, _ => None
        end
      else None
  end.



(** The SF4 run whose only file holds 601 samples, one more than the
    minute has; its last reading of [Ux] is missing. *)
Definition sf4_spill_env : env :=
  sf4_env (toa5_first_line toa5_fields)
          (sf4_table t_2020_01_01 601 [("Ux", 600%nat)]).

Definition sf4_spill_interval : result (frame * world * ifile_t) :=
  process_interval sf4_spill_env (World (indexed sf4_spill_env sf4_engine) [])
                   0 t_2020_01_01 [("SF4", 0%nat)].

Definition frame_of (r : result (frame * world * ifile_t)) : frame :=
  match r with
  | Ok (dat, _, _) => dat
  | Raise _ => DataFrame None [] []
  end.

Definition written_by (r : result (frame * world * ifile_t)) : list (string * list column) :=
  match r with
  | Ok (_, w, _) => disk w
  | Raise _ => []
  end.

Definition array_of (r : result ndarray) : ndarray :=
  match r with
  | Ok a => a
  | Raise _ => NdArray (0, 0, 0, 0)%nat []
  end.

(** The summary array of a run of one interval and one site. *)
Definition blank_summary : ndarray := NdArray (1, 5, 1, 9)%nat [].





(** The dense time index, as row keys. *)
Definition axis_keys (s : engine) (dfts : Timestamp) : list cell :=
  map Val (desired_time_index s dfts).







(** The sites with their headers, which no step of a run changes. *)
Definition header_view (s : engine) : list (string * list string) :=
  map (fun kv => (fst kv, final_header (snd kv))) (site_info s).


Definition world_of (r : result (frame * world * ifile_t)) : world :=
  match r with
  | Ok (_, w, _) => w
  | Raise _ => World (EngineState [] 0 0 0 0 0 0 EmptyString [] None) []
  end.

(** One SF4 interval without any raw file. *)
Definition sf4_idle_interval : result (frame * world * ifile_t) :=
  process_interval empty_env (World sf4_engine []) 0 t_2020_01_01 [("SF4", 0%nat)].





(** ** Notions for the further properties *)


(** No label of the frame holds one of the diagnostic patterns. *)
Definition no_diagnostic_label (df : frame) : Prop :=
  Forall (fun c => forall p, In p diag_patterns -> str_contains p c = false)
         (names df).

(** A site and file date for which no branch of [reorder_headers] sets
    the rule: SF4 from 2100-11-19 on, UF3 up to 2019-02-13. *)
Definition no_rule_date (site : string) (fts : Timestamp) : Prop :=
  (site = "SF4" /\ date d_2100_11_19 <= date fts) \/
  (site = "UF3" /\ date fts <= date d_2019_02_13).

(** An engine with NF3 as its only site, on its maintenance day. *)
Definition nf3_engine : engine :=
  sample_engine ["NF3"] 30 10 noon_2019_05_19 noon_2019_05_19.

(** A late SF4 timestamp. *)
Definition t_2101_01_01 : Timestamp := midnight 2101 1 1.



(** The engine the file index leaves. *)
Definition found_engine (e : env) (s : engine) : engine :=
  match find_fast_files e s with
  | Ok s' => s'
  | Raise _ => s
  end.

(** The configuration of an engine: all of it but the sites' state and
    the summary. *)
Definition same_config (s s' : engine) : Prop :=
  start_time s' = start_time s /\ end_time s' = end_time s /\
  acq_freq s' = acq_freq s /\ acq_period s' = acq_period s /\
  file_length s' = file_length s /\ n_records s' = n_records s /\
  out_path s' = out_path s /\ desired_file_tss s' = desired_file_tss s.

(** Two states of a site that differ in the content of the metadata
    table at most. *)
Definition same_but_metadata (r r' : site_rec) : Prop :=
  fns r' = fns r /\ file_tss r' = file_tss r /\
  converted_path r' = converted_path r /\
  n_files_converted r' = n_files_converted r /\
  final_header r' = final_header r /\
  fns_temp r' = fns_temp r /\ file_tss_temp r' = file_tss_temp r /\
  List.length (meta_rows (rawfile_metadata r')) =
  List.length (meta_rows (rawfile_metadata r)).

(** How processing moves a site from state [r] with file counter [i] to
    state [r'] with counter [i']: some files leave the front of the
    queue and the counter advances by their number; the metadata table
    keeps its size; the file index, the header and the directory stay. *)
Definition site_progress (r : site_rec) (i : nat) (r' : site_rec) (i' : nat) : Prop :=
  (exists popped, file_tss_temp r = popped ++ file_tss_temp r' /\
                  i' = (i + List.length popped)%nat)%list /\
  List.length (meta_rows (rawfile_metadata r')) =
  List.length (meta_rows (rawfile_metadata r)) /\
  fns r' = fns r /\ file_tss r' = file_tss r /\
  n_files_converted r' = n_files_converted r /\
  final_header r' = final_header r /\
  converted_path r' = converted_path r.




(** What the file index pairs with the timestamp [t] at a site: a
    [TOA5*.dat] file of the site's directory whose path holds the stamp
    rendered from [t], or nothing when the directory has no such file. *)
Definition paired (e : env) (r : site_rec) (fn : path) (t : Timestamp) : Prop :=
  match fn with
  | Some p =>
      exists name, In name (listdir e (converted_path r)) /\
                   glob_TOA5_dat name = true /\
                   p = (converted_path r ++ "/" ++ name)%string /\
                   str_contains (file_start_str t) p = true
  | None =>
      forall name, In name (listdir e (converted_path r)) ->
                   glob_TOA5_dat name = true ->
                   str_contains (file_start_str t)
                                (converted_path r ++ "/" ++ name)%string = false
  end.



(* ===================================================================== *)
(** * Facts about the Python core *)
(* ===================================================================== *)

Section PyFacts.

Local Open Scope list_scope.

Lemma bind_Ok {A B : Type} (r : result A) (k : A -> result B) (b : B) :
  bind r k = Ok b -> exists a, r = Ok a /\ k a = Ok b.
Proof.
  destruct r as [a|e]; simpl; intros H; [eauto | discriminate].
Qed.

Lemma bind_Raise {A B : Type} (r : result A) (k : A -> result B) (e : exn) :
  bind r k = Raise e -> r = Raise e \/ exists a, r = Ok a /\ k a = Raise e.
Proof.
  destruct r as [a|e']; simpl; intros H; [right; eauto | left; congruence].
Qed.

Lemma str_append_empty (s : string) : (s ++ "")%string = s.
Proof.
  induction s as [|c s IH]; simpl; [reflexivity | now rewrite IH].
Qed.

Lemma str_append_assoc (a b c : string) :
  ((a ++ b) ++ c)%string = (a ++ (b ++ c))%string.
Proof.
  induction a as [|x a IH]; simpl; [reflexivity | now rewrite IH].
Qed.

Lemma split_go_nonempty (sep s cur : string) (k : nat) : split_go sep s cur k <> [].
Proof.
  revert cur k. induction s as [|c s IH]; intros cur k; simpl.
  - discriminate.
  - destruct k as [|k]; [|apply IH].
    destruct (str_prefix sep (String c s)); [discriminate | apply IH].
Qed.

(** Without the separator in it, a string splits into itself. *)
Lemma split_go_no_separator (sep s cur : string) :
  str_contains sep s = false -> split_go sep s cur 0 = [(cur ++ s)%string].
Proof.
  revert cur. induction s as [|c s IH]; intros cur H.
  - simpl. now rewrite str_append_empty.
  - cbn [str_contains] in H. apply orb_false_elim in H. destruct H as [Hp Hc].
    cbn [split_go]. rewrite Hp. rewrite IH by exact Hc.
    now rewrite str_append_assoc.
Qed.

Lemma str_split_no_separator (sep s : string) :
  str_contains sep s = false -> str_split sep s = [s].
Proof.
  intros H. unfold str_split. now rewrite split_go_no_separator.
Qed.

(** With the separator in it, a string splits into two pieces at least. *)
Lemma split_go_separator (sep s cur : string) :
  sep <> EmptyString -> str_contains sep s = true ->
  exists a b rest, split_go sep s cur 0 = a :: b :: rest.
Proof.
  intros Hsep. revert cur. induction s as [|c s IH]; intros cur H.
  - destruct sep; [contradiction | discriminate].
  - cbn [split_go]. destruct (str_prefix sep (String c s)) eqn:Hp.
    + destruct (split_go sep s "" (String.length sep - 1)) as [|b rest] eqn:E.
      * now apply split_go_nonempty in E.
      * eauto.
    + cbn [str_contains] in H. rewrite Hp in H. apply IH. exact H.
Qed.

Lemma exn_name_values (e : exn) :
  In (exn_name e)
     ["IndexError"; "KeyError"; "ValueError"; "TypeError"; "UnboundLocalError";
      "FileNotFoundError"; "ArrowInvalid"].
Proof.
  destruct e; simpl; tauto.
Qed.

End PyFacts.

(* ===================================================================== *)
(** * File index *)
(* ===================================================================== *)

Section FileIndex.

Local Open Scope list_scope.

Lemma to_datetime_YmdHM_errors (s : string) (e : exn) :
  to_datetime_YmdHM s = Raise e -> e = ValueError.
Proof.
  unfold to_datetime_YmdHM.
  destruct (_ || _); [discriminate|].
  destruct (match_groups _ s) as [[ms rest]|]; [|now intros [= <-]].
  do 5 (destruct ms as [|? ms]; [now intros [= <-]|]).
  destruct ms; [|now intros [= <-]].
  repeat match goal with
         | |- (if ?c then _ else _) = _ -> _ => destruct c
         end; (discriminate || now intros [= <-]).
Qed.

(** The scan of a directory fails as soon as one name fails. *)
Lemma collect_file_tss_raises (start stop : Timestamp) (l : list string) (fn : string) :
  In fn l -> raises (get_timestamp_from_fn fn) ->
  raises (collect_file_tss start stop l).
Proof.
  intros Hin [e He]. induction l as [|x l IH]; [contradiction|].
  cbn [collect_file_tss].
  destruct (get_timestamp_from_fn x) as [d|e'] eqn:Hx.
  - destruct Hin as [->|Hin]; [congruence|].
    destruct (IH Hin) as [e'' ->]. simpl. now exists e''.
  - simpl. now exists e'.
Qed.

Lemma collect_file_tss_errors (start stop : Timestamp) (l : list string) (e : exn) :
  collect_file_tss start stop l = Raise e ->
  exists fn, In fn l /\ get_timestamp_from_fn fn = Raise e.
Proof.
  induction l as [|x l IH]; [discriminate|].
  cbn [collect_file_tss].
  destruct (get_timestamp_from_fn x) as [d|e'] eqn:Hx; simpl.
  - destruct (collect_file_tss start stop l) as [tss|e''] eqn:Hl; simpl.
    + destruct d as [|t]; [discriminate|]. destruct (_ && _); discriminate.
    + intros [= <-]. destruct (IH eq_refl) as (fn & Hin & Hfn).
      exists fn. split; [now right | exact Hfn].
  - intros [= <-]. exists x. split; [now left | exact Hx].
Qed.

(** C6, as the code has it.  A file name without the [Hz] marker fails
    with [IndexError]; whenever extraction fails, the exception is
    [IndexError] or the [ValueError] of the date parser, never an
    exception class of the engine's own; and indexing a directory fails
    with that same exception when one of its names fails. *)
Theorem get_timestamp_from_fn_failure (start stop : Timestamp) (l : list string)
  (fn : string) :
  In fn l ->
  str_contains "Hz" (path_name fn) = false ->
  get_timestamp_from_fn fn = Raise IndexError /\
  (forall fn' e, get_timestamp_from_fn fn' = Raise e ->
                 e = IndexError \/ e = ValueError) /\
  (exists e, collect_file_tss start stop l = Raise e /\
             (e = IndexError \/ e = ValueError)).
Proof.
  intros Hin Hno.
  assert (Hfail : get_timestamp_from_fn fn = Raise IndexError).
  { unfold get_timestamp_from_fn. now rewrite str_split_no_separator. }
  assert (Hkinds : forall fn' e, get_timestamp_from_fn fn' = Raise e ->
                                 e = IndexError \/ e = ValueError).
  { intros fn' e. unfold get_timestamp_from_fn, list_get.
    destruct (nth_error _ 1) as [file_id|]; simpl.
    - intros H. right. eapply to_datetime_YmdHM_errors, H.
    - intros [= <-]. now left. }
  split; [exact Hfail | split; [exact Hkinds|]].
  destruct (collect_file_tss_raises start stop l fn Hin) as [e He].
  { now exists IndexError. }
  exists e. split; [exact He|].
  destruct (collect_file_tss_errors _ _ _ _ He) as (fn' & _ & Hfn').
  eapply Hkinds, Hfn'.
Qed.

Lemma get_timestamp_from_fn_failure_witness :
  get_timestamp_from_fn "TOA5_NF17_fast.dat" = Raise IndexError /\
  (forall fn' e, get_timestamp_from_fn fn' = Raise e ->
                 e = IndexError \/ e = ValueError) /\
  (exists e, collect_file_tss 0 1 ["TOA5_NF17_fast.dat"] = Raise e /\
             (e = IndexError \/ e = ValueError)).
Proof.
  apply (get_timestamp_from_fn_failure 0 1 ["TOA5_NF17_fast.dat"] "TOA5_NF17_fast.dat").
  - simpl. left. reflexivity.
  - vm_compute. reflexivity.
Defined.

(** C6 as stated fails: a name without the rate marker does not parse,
    and the exception it raises is [IndexError]. *)
Lemma filename_error_counterexample :
  str_contains "Hz" (path_name "TOA5_NF17_fast.dat") = false /\
  get_timestamp_from_fn "TOA5_NF17_fast.dat" = Raise IndexError /\
  ~ raises_named (get_timestamp_from_fn "TOA5_NF17_fast.dat") "FilenameFormatError".
Proof.
  split; [reflexivity | split; [reflexivity|]].
  intros (e & He & Hname).
  change (get_timestamp_from_fn "TOA5_NF17_fast.dat") with (@Raise datetime IndexError) in He.
  injection He as <-. discriminate Hname.
Qed.

End FileIndex.

(* ===================================================================== *)
(** * Schema harmonizer: the maintenance day *)
(* ===================================================================== *)

Section Maintenance.

Local Open Scope list_scope.

Lemma make_empty_placeholder (s : engine) (fts : Timestamp) (site : string)
  (r : site_rec) :
  assoc site (site_info s) = Some r ->
  assoc site final_headers = Some (final_header r) ->
  make_empty s fts site = Ok (placeholder s fts (final_header r)).
Proof.
  intros Hr Hh. unfold make_empty, dict_get, placeholder. rewrite Hr. simpl bind.
  remember (final_header r) as hdr eqn:E. clear E.
  unfold final_headers in Hh. cbn [assoc] in Hh.
  repeat match type of Hh with
         | (if String.eqb site ?k then _ else _) = _ =>
             destruct (String.eqb site k);
             [injection Hh as <-; cbn; rewrite Z.add_0_r; reflexivity|]
         end.
  discriminate.
Qed.

(** C4.  On the maintenance day of NF17, NF3 and SF7 (2019-05-19) the
    harmonizer returns the two-row all-missing placeholder of the site,
    whatever frame it is given. *)
Theorem reorder_headers_maintenance (s : engine) (site : string) (fts : Timestamp)
  (df : frame) (r : site_rec) :
  In site ["NF17"; "NF3"; "SF7"] ->
  date fts = date d_2019_05_19 ->
  assoc site (site_info s) = Some r ->
  assoc site final_headers = Some (final_header r) ->
  reorder_headers s site fts df = Ok (placeholder s fts (final_header r)) /\
  nrows (placeholder s fts (final_header r)) = 2%nat /\
  Forall (fun col => snd col = [NaN; NaN]) (columns (placeholder s fts (final_header r))).
Proof.
  intros Hsite Hd Hr Hh.
  assert (Hrule : select_rule site (date fts) = Maintenance).
  { rewrite Hd. simpl in Hsite.
    destruct Hsite as [<-|[<-|[<-|[]]]]; vm_compute; reflexivity. }
  split; [|split].
  - unfold reorder_headers. rewrite Hrule. now apply make_empty_placeholder.
  - reflexivity.
  - unfold placeholder. cbn [columns]. apply Forall_forall.
    intros col Hin. apply in_map_iff in Hin. destruct Hin as (c & <- & _). reflexivity.
Qed.

Lemma reorder_headers_maintenance_witness :
  reorder_headers (sample_engine ["NF3"] 30 10 noon_2019_05_19 noon_2019_05_19)
                  "NF3" noon_2019_05_19 sonic_diag_frame
  = Ok (placeholder (sample_engine ["NF3"] 30 10 noon_2019_05_19 noon_2019_05_19)
                    noon_2019_05_19
                    (final_header
                       (site_rec_of
                          (sample_engine ["NF3"] 30 10 noon_2019_05_19 noon_2019_05_19)
                          "NF3"))) /\
  nrows (placeholder (sample_engine ["NF3"] 30 10 noon_2019_05_19 noon_2019_05_19)
                     noon_2019_05_19
                     (final_header
                        (site_rec_of
                           (sample_engine ["NF3"] 30 10 noon_2019_05_19 noon_2019_05_19)
                           "NF3"))) = 2%nat /\
  Forall (fun col => snd col = [NaN; NaN])
         (columns
            (placeholder (sample_engine ["NF3"] 30 10 noon_2019_05_19 noon_2019_05_19)
                         noon_2019_05_19
                         (final_header
                            (site_rec_of
                               (sample_engine ["NF3"] 30 10 noon_2019_05_19 noon_2019_05_19)
                               "NF3")))).
Proof.
  apply (reorder_headers_maintenance
           (sample_engine ["NF3"] 30 10 noon_2019_05_19 noon_2019_05_19)
           "NF3" noon_2019_05_19 sonic_diag_frame).
  - simpl. tauto.
  - reflexivity.
  - reflexivity.
  - reflexivity.
Defined.

End Maintenance.

(* ===================================================================== *)
(** * Diagnostic decoder *)
(* ===================================================================== *)

Section Diagnostics.

Local Open Scope list_scope.

Lemma diagnostics_loop_raises (site : string) (labels : list string) (df : frame) :
  (exists c, In c labels /\ re_search_alts diag_patterns c <> None) ->
  raises (diagnostics_loop site labels df).
Proof.
  revert df. induction labels as [|colname rest IH]; intros df (c & Hin & Hc).
  - contradiction.
  - cbn [diagnostics_loop].
    destruct (re_search_alts diag_patterns colname) as [m|] eqn:Hm.
    + destruct (dict_get (diag_dict site) _) as [kw|e]; [|now exists e].
      cbn [bind]. destruct (assign df kw) as [df'|e]; [|now exists e].
      now exists TypeError.
    + apply IH. destruct Hin as [->|Hin]; [contradiction|]. now exists c.
Qed.

Lemma diagnostics_loop_no_match (site : string) (labels : list string) (df : frame) :
  Forall (fun c => re_search_alts diag_patterns c = None) labels ->
  diagnostics_loop site labels df = Ok df.
Proof.
  induction 1 as [|c rest Hc _ IH]; cbn [diagnostics_loop]; [reflexivity|].
  now rewrite Hc.
Qed.

(** C3, what the code does instead.  A frame with a column whose label
    matches a diagnostic pattern makes [process_diagnostics] raise: the
    flag is computed on the whole frame, and the stray call of
    [DataFrame.assign] on the class fails in any case.  No frame with a
    flag column added is ever returned. *)
Theorem process_diagnostics_raises (df : frame) (site : string) :
  (exists c, In c (names df) /\ re_search_alts diag_patterns c <> None) ->
  raises (process_diagnostics df site).
Proof.
  apply diagnostics_loop_raises.
Qed.

Lemma process_diagnostics_raises_witness :
  raises (process_diagnostics sonic_diag_frame "SF4") /\
  process_diagnostics sonic_diag_frame "SF4" = Raise ValueError.
Proof.
  split; [|reflexivity].
  apply (process_diagnostics_raises sonic_diag_frame "SF4").
  exists "DIAG_SON". split; [left; reflexivity | discriminate].
Defined.

End Diagnostics.

(* ===================================================================== *)
(** * Raw-file metadata *)
(* ===================================================================== *)

Section Metadata.

Local Open Scope list_scope.

Lemma assoc_dict_set_eq {V : Type} (d : list (string * V)) (k : string) (v : V) :
  assoc k (dict_set d k v) = Some v.
Proof.
  induction d as [|[k' v'] d IH]; simpl.
  - now rewrite String.eqb_refl.
  - destruct (String.eqb k k') eqn:E; simpl.
    + now rewrite String.eqb_refl.
    + now rewrite E.
Qed.

Lemma assoc_dict_set_ne {V : Type} (d : list (string * V)) (k k' : string) (v : V) :
  k' <> k -> assoc k' (dict_set d k v) = assoc k' d.
Proof.
  intros Hne. induction d as [|[k0 v0] d IH]; simpl.
  - apply String.eqb_neq in Hne. now rewrite Hne.
  - destruct (String.eqb k k0) eqn:E; simpl.
    + apply String.eqb_eq in E. subst k0.
      apply String.eqb_neq in Hne. now rewrite Hne.
    + now rewrite IH.
Qed.

Lemma dict_keys_dict_set_present {V : Type} (d : list (string * V)) (k : string) (v : V) :
  In k (dict_keys d) -> dict_keys (dict_set d k v) = dict_keys d.
Proof.
  unfold dict_keys. induction d as [|[k0 v0] d IH]; simpl; [contradiction|].
  intros Hin. destruct (String.eqb k k0) eqn:E; simpl.
  - apply String.eqb_eq in E. now subst.
  - f_equal. apply IH. destruct Hin as [->|Hin]; [|exact Hin].
    now rewrite String.eqb_refl in E.
Qed.

Lemma assoc_In_keys {V : Type} (d : list (string * V)) (k : string) (v : V) :
  assoc k d = Some v -> In k (dict_keys d).
Proof.
  unfold dict_keys. induction d as [|[k0 v0] d IH]; simpl; [discriminate|].
  destruct (String.eqb k k0) eqn:E.
  - apply String.eqb_eq in E. now left.
  - intros H. right. now apply IH.
Qed.

Lemma nth_error_list_set_eq {A : Type} (l : list A) (i : nat) (a : A) :
  (i < List.length l)%nat -> nth_error (list_set l i a) i = Some a.
Proof.
  revert i. induction l as [|x l IH]; intros [|i] H; simpl in *; try lia.
  - reflexivity.
  - apply IH. lia.
Qed.

Lemma nth_error_list_set_ne {A : Type} (l : list A) (i j : nat) (a : A) :
  j <> i -> nth_error (list_set l i a) j = nth_error l j.
Proof.
  revert i j. induction l as [|x l IH]; intros [|i] [|j] H; simpl; try reflexivity.
  - contradiction.
  - apply IH. congruence.
Qed.

Lemma length_list_set {A : Type} (l : list A) (i : nat) (a : A) :
  List.length (list_set l i a) = List.length l.
Proof.
  revert i. induction l as [|x l IH]; intros [|i]; simpl; try reflexivity.
  now rewrite IH.
Qed.

(** C9, as the code has it.  For a consumed file whose first line splits
    into eight quoted fields, [update_metadata] writes one record into
    the row of the site's table that [ifile] points at: output interval,
    output path, file timestamp, file path, then the eight fields.  No
    other row and no other site changes, and the site's counter moves to
    the next row. *)
Theorem update_metadata_record (e : env) (s : engine) (dfts ts : Timestamp)
  (desired_fn fn site : string) (ifile : ifile_t) (f : raw_file) (r : site_rec)
  (i : nat) (fields : list string) :
  open_file e fn = Some f ->
  assoc site (site_info s) = Some r ->
  meta_columns (rawfile_metadata r) = metadata_columns ->
  assoc site ifile = Some i ->
  (i < List.length (meta_rows (rawfile_metadata r)))%nat ->
  str_split quote_comma_quote (str_slice_1_m1 (first_line f)) = fields ->
  List.length fields = 8%nat ->
  metadata_recorded e s dfts ts desired_fn fn site ifile r i fields.
Proof.
  intros Hopen Hr Hcols Hi Hlt Hfields Hlen.
  unfold metadata_recorded, update_metadata, open_path, dict_get.
  rewrite Hopen, Hr, Hi. cbn [bind].
  unfold iloc_set. apply Nat.ltb_lt in Hlt. rewrite Hlt.
  unfold metadata_row. rewrite Hfields, Hcols.
  cbn [List.length app]. rewrite length_map, Hlen. cbn [Nat.eqb metadata_columns List.length bind].
  eexists _, _, _. split; [reflexivity|].
  apply Nat.ltb_lt in Hlt.
  split; [unfold set_site, set_site_info; cbn [site_info]; apply assoc_dict_set_eq|].
  split; [cbn; now apply nth_error_list_set_eq|].
  split; [intros j Hj; cbn; now apply nth_error_list_set_ne|].
  split; [cbn; apply length_list_set|].
  split; [apply assoc_dict_set_eq|].
  intros site' Hne. split; [now apply assoc_dict_set_ne|].
  unfold set_site, set_site_info. cbn [site_info]. now apply assoc_dict_set_ne.
Qed.

Lemma update_metadata_record_witness :
  metadata_recorded (sf4_one_sample (toa5_first_line toa5_fields))
    (indexed (sf4_one_sample (toa5_first_line toa5_fields)) sf4_engine)
    t_2020_01_01 t_2020_01_01 sf4_out sf4_path "SF4" [("SF4", 0%nat)]
    (site_rec_of (indexed (sf4_one_sample (toa5_first_line toa5_fields)) sf4_engine) "SF4")
    0
    (str_split quote_comma_quote (str_slice_1_m1 (toa5_first_line toa5_fields))).
Proof.
  apply (update_metadata_record
           (sf4_one_sample (toa5_first_line toa5_fields))
           (indexed (sf4_one_sample (toa5_first_line toa5_fields)) sf4_engine)
           t_2020_01_01 t_2020_01_01 sf4_out sf4_path "SF4" [("SF4", 0%nat)]
           (RawFile (toa5_first_line toa5_fields) (Some (sf4_table t_2020_01_01 1 [])))).
  - reflexivity.
  - reflexivity.
  - reflexivity.
  - reflexivity.
  - vm_compute. lia.
  - reflexivity.
  - reflexivity.
Defined.

(** C9 as stated fails: a first line of twelve fields gives a record of
    sixteen entries, which the twelve-column table refuses; the table
    has room for eight fields from the file. *)
Lemma twelve_fields_counterexample :
  List.length (str_split quote_comma_quote
                 (str_slice_1_m1 (toa5_first_line twelve_fields))) = 12%nat /\
  update_metadata (sf4_one_sample (toa5_first_line twelve_fields))
    (indexed (sf4_one_sample (toa5_first_line twelve_fields)) sf4_engine)
    t_2020_01_01 sf4_out t_2020_01_01 (Some sf4_path) "SF4" [("SF4", 0%nat)]
  = Raise ValueError /\
  List.length metadata_columns = (4 + 8)%nat.
Proof.
  split; [|split]; vm_compute; reflexivity.
Qed.

End Metadata.

(* ===================================================================== *)
(** * Schema harmonizer: the dated rules *)
(* ===================================================================== *)

Section Harmonizer.

Local Open Scope list_scope.

Lemma filter_named_length (k : string) (cols : list column) :
  List.length (filter (named k) cols) = occurrences k (map fst cols).
Proof.
  unfold occurrences, named. induction cols as [|col cols IH]; simpl; [reflexivity|].
  rewrite (String.eqb_sym (fst col) k).
  destruct (String.eqb k (fst col)); simpl; now rewrite IH.
Qed.

Lemma filter_named_label (k : string) (cols : list column) (col : column) :
  In col (filter (named k) cols) -> fst col = k /\ In col cols.
Proof.
  intros H. apply filter_In in H. destruct H as [Hin Hk].
  split; [now apply String.eqb_eq in Hk | exact Hin].
Qed.

(** Selecting labels that each occur once gives exactly those labels. *)
Lemma select_columns_unique (cols : list column) (keys : list string) :
  (forall k, In k keys -> occurrences k (map fst cols) = 1%nat) ->
  exists out, select_columns cols keys = Ok out /\
              map fst out = keys /\ incl out cols.
Proof.
  induction keys as [|k keys IH]; intros H.
  - exists []. repeat split. intros x [].
  - destruct IH as (out & Hout & Hfst & Hincl).
    { intros k' Hk'. apply H. now right. }
    cbn [select_columns]. rewrite Hout.
    pose proof (filter_named_length k cols) as Hlen.
    rewrite (H k (or_introl eq_refl)) in Hlen.
    destruct (filter (named k) cols) as [|col [|col' rest]] eqn:Hf; try discriminate Hlen.
    destruct (filter_named_label k cols col) as [Hk Hin].
    { rewrite Hf. now left. }
    exists (col :: out). cbn [bind app map]. repeat split.
    + now rewrite Hk, Hfst.
    + intros x [<-|Hx]; [exact Hin | now apply Hincl].
Qed.

Lemma strs_eqb_length (a b : list string) :
  strs_eqb a b = true -> List.length a = List.length b.
Proof.
  revert b. induction a as [|x a IH]; intros [|y b]; simpl; try discriminate.
  - reflexivity.
  - intros H. apply andb_true_iff in H. destruct H as [_ H]. f_equal. now apply IH.
Qed.

Lemma strs_eqb_app_nonempty (a add : list string) :
  add <> [] -> strs_eqb (a ++ add) a = false.
Proof.
  intros Hne. destruct (strs_eqb (a ++ add) a) eqn:E; [|reflexivity].
  apply strs_eqb_length in E. rewrite length_app in E.
  destruct add; [contradiction | simpl in E; lia].
Qed.

Ltac rule_cases H :=
  repeat match type of H with
         | (if ?c then _ else _) = _ => destruct c eqn:?
         end;
  try discriminate H; injection H as <- <-.

(** Every dated rule adds at least one column. *)
Lemma select_rule_adds (site : string) (d : Z) (add : list string)
  (ren : list (string * string)) :
  select_rule site d = Rule add ren -> add <> [].
Proof.
  unfold select_rule. intros H. rule_cases H; discriminate.
Qed.

(** C2, as the code has it.  On a date covered by a rule, for a frame
    with unique labels in which, once the rule's columns are added and
    its renaming applied, every label of the canonical header occurs
    exactly once, the harmonizer returns the canonical header, in order,
    over the same rows; each column is a column of the input under its
    new name or an added all-missing column, and the other columns are
    dropped. *)
Theorem reorder_headers_canonical (s : engine) (site : string) (fts : Timestamp)
  (df : frame) (r : site_rec) (cols_to_add : list string)
  (renaming_dict : list (string * string)) :
  select_rule site (date fts) = Rule cols_to_add renaming_dict ->
  assoc site (site_info s) = Some r ->
  nodupb (names df) = true ->
  (forall c, In c (final_header r) ->
             occurrences c (map (rename_label renaming_dict)
                                (names df ++ cols_to_add)) = 1%nat) ->
  exists df',
    reorder_headers s site fts df = Ok df' /\
    names df' = final_header r /\
    index df' = index df /\
    Forall (fun col => exists c, In c (names df ++ cols_to_add) /\
                                 fst col = rename_label renaming_dict c /\
                                 snd col = values_or_missing df c)
           (columns df').
Proof.
  intros Hrule Hr Hnodup Hocc.
  unfold reorder_headers, dict_get. rewrite Hrule, Hr. cbn [bind].
  unfold reindex_columns.
  rewrite (strs_eqb_app_nonempty _ _ (select_rule_adds _ _ _ _ Hrule)), Hnodup.
  cbn [bind]. unfold getitem_list, rename_columns. cbn [columns index index_name].
  rewrite map_map. cbn [fst snd].
  destruct (select_columns_unique
              (map (fun c => (rename_label renaming_dict c, values_or_missing df c))
                   (names df ++ cols_to_add))
              (final_header r)) as (out & Hout & Hfst & Hincl).
  { intros c Hc. rewrite map_map. cbn [fst]. now apply Hocc. }
  rewrite Hout. cbn [bind]. eexists. split; [reflexivity|].
  unfold names. cbn [columns index]. repeat split; [exact Hfst|].
  apply Forall_forall. intros col Hcol. apply Hincl in Hcol.
  apply in_map_iff in Hcol. destruct Hcol as (c & <- & Hc).
  exists c. repeat split. exact Hc.
Qed.

Lemma reorder_headers_canonical_witness :
  exists df',
    reorder_headers sf4_engine "SF4" t_2020_01_01 (sf4_table t_2020_01_01 1 []) = Ok df' /\
    names df' = final_header (site_rec_of sf4_engine "SF4") /\
    index df' = index (sf4_table t_2020_01_01 1 []) /\
    Forall (fun col => exists c,
                In c (names (sf4_table t_2020_01_01 1 []) ++ sf4_cols_to_add) /\
                fst col = rename_label sf4_renaming_dict c /\
                snd col = values_or_missing (sf4_table t_2020_01_01 1 []) c)
           (columns df').
Proof.
  apply (reorder_headers_canonical sf4_engine "SF4" t_2020_01_01
           (sf4_table t_2020_01_01 1 []) (site_rec_of sf4_engine "SF4")
           sf4_cols_to_add sf4_renaming_dict).
  - reflexivity.
  - reflexivity.
  - reflexivity.
  - intros c Hc. vm_compute in Hc.
    repeat (destruct Hc as [<-|Hc]; [vm_compute; reflexivity|]).
    contradiction.
Defined.

(** C2 as stated fails: a frame that lacks canonical columns is not
    completed with missing values, the selection raises [KeyError]. *)
Lemma missing_columns_counterexample :
  reorder_headers sf4_engine "SF4" t_2020_01_01
                  (frame_of_timestamps "TIMESTAMP" [t_2020_01_01])
  = Raise KeyError.
Proof.
  vm_compute. reflexivity.
Qed.

Ltac explode_columns cols H :=
  repeat (destruct cols as [|[? ?] cols]; [discriminate H|];
          cbn [map fst] in H; injection H as ? H; subst);
  destruct cols; [clear H|discriminate H].

(** C8, as the code has it.  On a date covered by a rule, a frame that
    already carries the canonical header of the site is returned with
    its rows and values, its columns in canonical order, and every
    column the rule adds appearing twice. *)
Theorem reorder_headers_on_canonical (s : engine) (site : string) (fts : Timestamp)
  (df : frame) (r : site_rec) (cols_to_add : list string)
  (renaming_dict : list (string * string)) :
  select_rule site (date fts) = Rule cols_to_add renaming_dict ->
  assoc site (site_info s) = Some r ->
  assoc site final_headers = Some (final_header r) ->
  names df = final_header r ->
  reorder_headers s site fts df =
  Ok {| index_name := index_name df;
        index := index df;
        columns := flat_map (twice_if_added cols_to_add) (columns df) |}.
Proof.
  intros Hrule Hr Hh Hn.
  unfold reorder_headers, dict_get. rewrite Hrule, Hr. cbn [bind].
  rewrite Hn.
  destruct df as [iname idx cols]. unfold names in Hn.
  cbn [columns index index_name] in *.
  remember (final_header r) as hdr eqn:E. clear E.
  unfold select_rule in Hrule.
  unfold final_headers in Hh. cbn [assoc] in Hh.
  repeat match type of Hh with
         | (if String.eqb site ?k then _ else _) = _ =>
             destruct (String.eqb site k) eqn:?;
             [injection Hh as <-; rule_cases Hrule;
              explode_columns cols Hn; vm_compute; reflexivity|]
         end.
  discriminate Hh.
Qed.

Lemma reorder_headers_on_canonical_witness :
  reorder_headers sf4_engine "SF4" t_2020_01_01 sf4_canonical =
  Ok {| index_name := index_name sf4_canonical;
        index := index sf4_canonical;
        columns := flat_map (twice_if_added sf4_cols_to_add) (columns sf4_canonical) |}.
Proof.
  apply (reorder_headers_on_canonical sf4_engine "SF4" t_2020_01_01 sf4_canonical
           (site_rec_of sf4_engine "SF4") sf4_cols_to_add sf4_renaming_dict).
  - reflexivity.
  - reflexivity.
  - reflexivity.
  - reflexivity.
Defined.

(** C8 as stated fails: harmonizing a canonical SF4 frame returns a
    frame with one column more, the flag column twice. *)
Lemma idempotence_counterexample :
  names sf4_canonical = final_header (site_rec_of sf4_engine "SF4") /\
  exists df',
    reorder_headers sf4_engine "SF4" t_2020_01_01 sf4_canonical = Ok df' /\
    df' <> sf4_canonical /\
    occurrences "flag_SON_SF4" (names df') = 2%nat /\
    List.length (columns df') = S (List.length (columns sf4_canonical)).
Proof.
  split; [reflexivity|].
  eexists. split; [vm_compute; reflexivity|].
  split; [discriminate|]. split; reflexivity.
Qed.

End Harmonizer.

(* ===================================================================== *)
(** * Summary statistics *)
(* ===================================================================== *)

Section Summary.

Local Open Scope list_scope.

Lemma idx_eqb_eq (a b : idx) : idx_eqb a b = true <-> a = b.
Proof.
  destruct a as [[[a0 a1] a2] a3], b as [[[b0 b1] b2] b3]. unfold idx_eqb.
  rewrite !andb_true_iff, !Nat.eqb_eq. split.
  - intros [[[-> ->] ->] ->]. reflexivity.
  - intros [= -> -> -> ->]. auto.
Qed.


Lemma find_written_other (i0 i2 i3 : nat) (j : idx) (vals : list stat)
  (rest : list (idx * stat)) (a d : nat) :
  (forall k, j <> (i0, k, i2, i3)) ->
  find (fun kv => idx_eqb (fst kv) j)
       (map (fun k' => ((i0, k', i2, i3), nth k' vals SNaN)) (seq a d) ++ rest)
  = find (fun kv => idx_eqb (fst kv) j) rest.
Proof.
  intros Hj. revert a. induction d as [|d IH]; intros a; [reflexivity|].
  cbn [seq map app find fst].
  destruct (idx_eqb (i0, a, i2, i3) j) eqn:E.
  - apply idx_eqb_eq in E. symmetry in E. now apply Hj in E.
  - apply IH.
Qed.

Lemma arr_set_stats_inv (a a' : ndarray) (i0 i2 i3 : nat) (vals : list stat) :
  arr_set_stats a i0 i2 i3 vals = Ok a' ->
  shape a' = shape a /\
  written a' = map (fun k => ((i0, k, i2, i3), nth k vals SNaN))
                   (seq 0 (List.length vals)) ++ written a.
Proof.
  unfold arr_set_stats. destruct (shape a) as [[[d0 d1] d2] d3] eqn:Hs.
  destruct (_ && _); [|discriminate].
  destruct (Nat.eqb _ d1) eqn:E; [|discriminate].
  apply Nat.eqb_eq in E. intros [= <-]. cbn [shape written]. rewrite E. auto.
Qed.


(** Writing a row leaves the other rows as they were. *)
Lemma arr_get_set_other (a a' : ndarray) (i0 i2 i3 : nat) (j : idx) (vals : list stat) :
  arr_set_stats a i0 i2 i3 vals = Ok a' ->
  (forall k, j <> (i0, k, i2, i3)) ->
  arr_get a' j = arr_get a j.
Proof.
  intros H Hj. apply arr_set_stats_inv in H. destruct H as [_ Hw].
  unfold arr_get. now rewrite Hw, find_written_other.
Qed.


(** What one turn of the loop does: a skipped label leaves the array
    alone, a summarised one writes the five statistics of its values
    into its cell. *)
Lemma summarise_column_inv (s : engine) (dat : frame) (arr arr' : ndarray)
  (sites : list (string * nat)) (idfts : nat) (c : string) :
  summarise_column s dat arr sites idfts c = Ok arr' ->
  match summary_target sites c with
  | Some (i, j) =>
      exists vals stats,
        getitem_values dat c = Ok vals /\
        column_stats (n_records s) vals = Ok stats /\
        arr_set_stats arr idfts i j stats = Ok arr'
  | None => arr' = arr
  end.
Proof.
  unfold summarise_column, summary_target.
  destruct c as [|c0 c']; [discriminate|].
  destruct (str_contains (String c0 "") "UTCHPF"); [|now intros [= <-]].
  destruct (list_last _) as [site|]; [|discriminate].
  destruct (list_get _ 0) as [col_id|]; [|discriminate].
  cbn [bind].
  destruct (getitem_values dat _) as [vals|] eqn:Hvals; [|discriminate].
  cbn [bind].
  destruct (column_stats _ vals) as [stats|] eqn:Hstats; [|discriminate].
  cbn [bind]. unfold dict_get.
  destruct (assoc site sites) as [i|]; [|discriminate].
  cbn [bind].
  destruct (assoc col_id summary_cols) as [j|]; [|discriminate].
  cbn [bind]. intros H. exists vals, stats. auto.
Qed.




(** ** The missing rate *)












End Summary.

(* ===================================================================== *)
(** * The site axis of the summary *)
(* ===================================================================== *)

Section SiteAxis.

Local Open Scope list_scope.






Lemma assoc_not_in {V : Type} (d : list (string * V)) (k : string) :
  ~ In k (dict_keys d) -> assoc k d = None.
Proof.
  unfold dict_keys. induction d as [|[k0 v0] d IH]; simpl; [reflexivity|].
  intros H. destruct (String.eqb_spec k k0) as [->|_]; [tauto|].
  apply IH. tauto.
Qed.









Lemma find_sites_keys (e : env) (start stop : Timestamp) (sites : list string)
  (s s' : engine) :
  find_sites e start stop sites s = Ok s' ->
  dict_keys (site_info s') = dict_keys (site_info s).
Proof.
  revert s. induction sites as [|site sites IH]; intros s H.
  - now injection H as <-.
  - cbn [find_sites] in H. unfold dict_get in H.
    destruct (assoc site (site_info s)) as [r|] eqn:Hr; [|discriminate].
    cbn [bind] in H. apply bind_Ok in H. destruct H as (r' & _ & H).
    rewrite (IH _ H). unfold set_site, set_site_info. cbn [site_info].
    apply dict_keys_dict_set_present. eapply assoc_In_keys, Hr.
Qed.

Lemma find_fast_files_keys (e : env) (s s' : engine) :
  find_fast_files e s = Ok s' ->
  dict_keys (site_info s') = dict_keys (site_info s).
Proof.
  unfold find_fast_files. intros H. apply bind_Ok in H. destruct H as (_ & _ & H).
  now apply find_sites_keys in H.
Qed.







End SiteAxis.

(* ===================================================================== *)
(** * The outer join on row keys *)
(* ===================================================================== *)

Section OuterJoin.

Local Open Scope list_scope.












(** ** Counting keys *)










(** ** Rows of the join *)













End OuterJoin.

(* ===================================================================== *)
(** * One output interval: rows *)
(* ===================================================================== *)

Section IntervalRows.

Local Open Scope list_scope.

Lemma initial_frame (s : engine) (dfts : Timestamp) :
  set_index (frame_of_timestamps "TIMESTAMP" (desired_time_index s dfts)) "TIMESTAMP"
  = Ok {| index_name := Some "TIMESTAMP";
          index := axis_keys s dfts;
          columns := [] |}.
Proof. reflexivity. Qed.


(** What [process_interval] is made of. *)
Lemma process_interval_inv (e : env) (w w' : world) (idfts : nat) (dfts : Timestamp)
  (ifile ifile' : ifile_t) (dat : frame) :
  process_interval e w idfts dfts ifile = Ok (dat, w', ifile') ->
  exists out,
    sites_loop e dfts (desired_fn_of (self w) dfts) (dict_keys (site_info (self w)))
               {| index_name := Some "TIMESTAMP";
                  index := axis_keys (self w) dfts;
                  columns := [] |}
               (self w) ifile
    = Ok (dat, self w', ifile') /\
    emitted_columns dat = Ok out /\
    disk w' = disk w ++ [(desired_fn_of (self w) dfts, out)].
Proof.
  unfold process_interval. rewrite initial_frame. cbn [bind]. intros H.
  apply bind_Ok in H. destruct H as ([[dat1 s1] ifile1] & Hloop & H).
  apply bind_Ok in H. destruct H as (out & Hout & H).
  injection H as <- <- <-. exists out. auto.
Qed.






(** ** No file due *)



Lemma assoc_In {V : Type} (d : list (string * V)) (k : string) (v : V) :
  assoc k d = Some v -> In (k, v) d.
Proof.
  induction d as [|[k0 v0] d IH]; simpl; [discriminate|].
  destruct (String.eqb_spec k k0) as [->|_].
  - intros [= ->]. now left.
  - intros H. right. now apply IH.
Qed.










End IntervalRows.

(* ===================================================================== *)
(** * One output interval: columns *)
(* ===================================================================== *)

Section IntervalColumns.

Local Open Scope list_scope.











(** ** Headers of the table *)

Ltac each_site H :=
  apply assoc_In in H; unfold final_headers in H; cbn [In] in H;
  repeat (destruct H as [H|H]; [injection H as <- <-|]); [..|contradiction].

Lemma table_header_shape (site : string) (header : list string) :
  assoc site final_headers = Some header ->
  exists rest, header = "TIMESTAMP" :: rest /\ ~ In "TIMESTAMP" rest.
Proof.
  intros H. each_site H; (eexists; split; [reflexivity|]);
    intros Hin; simpl in Hin;
    repeat (destruct Hin as [Hin|Hin]; [discriminate Hin|]); exact Hin.
Qed.



Lemma header_view_keys (s : engine) :
  dict_keys (header_view s) = dict_keys (site_info s).
Proof.
  unfold header_view, dict_keys. rewrite map_map. reflexivity.
Qed.




(** ** Labels through [process_file] *)





Lemma placeholder_has_no_timestamp (s : engine) (fts : Timestamp) (site : string)
  (header : list string) :
  assoc site final_headers = Some header ->
  set_index (placeholder s fts header) "TIMESTAMP" = Raise KeyError.
Proof.
  intros H. destruct (table_header_shape _ _ H) as (rest & -> & Hrest).
  unfold set_index, placeholder. cbn [columns tl].
  replace (filter (named "TIMESTAMP") (map (fun c => (c, [NaN; NaN])) rest))
    with (@nil column); [reflexivity|].
  symmetry. clear H. induction rest as [|c rest IH]; [reflexivity|].
  cbn [map filter]. unfold named at 1. cbn [fst].
  destruct (String.eqb_spec c "TIMESTAMP") as [->|_].
  - exfalso. apply Hrest. now left.
  - apply IH. intros Hin. apply Hrest. now right.
Qed.







(** ** Labels of the merged frame *)







End IntervalColumns.

(* ===================================================================== *)
(** * Further properties: the constructor *)
(* ===================================================================== *)

Section Constructor.

Local Open Scope list_scope.








End Constructor.

(* ===================================================================== *)
(** * Further properties: the file queue *)
(* ===================================================================== *)

Section Queue.

Local Open Scope list_scope.

Lemma next_files_acc (nft : Timestamp) (tss : list Timestamp) :
  forall (fns : list path) (accf : list path) (acct : list Timestamp)
         (fns' : list path) (tss' : list Timestamp)
         (nf : list path) (nt : list Timestamp),
    List.length fns = List.length tss ->
    next_files nft fns tss accf acct = ((fns', tss'), (nf, nt)) ->
    exists pf pt,
      nf = accf ++ pf /\ nt = acct ++ pt /\
      fns = pf ++ fns' /\ tss = pt ++ tss' /\
      List.length pf = List.length pt /\
      Forall (fun t => t < nft) pt /\
      match tss' with
      | [] => True
      | t :: _ => nft <= t
      end.
Proof.
  induction tss as [|t tss IH]; intros fns accf acct fns' tss' nf nt Hlen H.
  - destruct fns; [|discriminate]. cbn [next_files] in H. injection H as <- <- <- <-.
    exists [], []. rewrite !app_nil_r. repeat split; constructor.
  - destruct fns as [|fn fns]; [discriminate|]. cbn [next_files] in H.
    destruct (Z.ltb_spec t nft) as [Hlt|Hge].
    + destruct (IH fns (accf ++ [fn]) (acct ++ [t]) fns' tss' nf nt) as
        (pf & pt & -> & -> & -> & -> & Hl & Hall & Hhd).
      * simpl in Hlen. lia.
      * exact H.
      * exists (fn :: pf), (t :: pt). rewrite <- !app_assoc. cbn [app List.length].
        repeat split; auto.
    + injection H as <- <- <- <-. exists [], []. rewrite !app_nil_r.
      repeat split; auto.
Qed.

(** X2.  Popping the files of an interval splits the queue in two: the
    popped files, in queue order, all stamped before the end of the
    interval, and the rest of the queue, whose first file is stamped at
    or after it.  File names and timestamps stay paired, and no file is
    lost or repeated. *)
Theorem next_files_split (nft : Timestamp) (fns fns' nf : list path)
  (tss tss' nt : list Timestamp) :
  List.length fns = List.length tss ->
  next_files nft fns tss [] [] = ((fns', tss'), (nf, nt)) ->
  fns = nf ++ fns' /\ tss = nt ++ tss' /\
  List.length nf = List.length nt /\
  List.length fns' = List.length tss' /\
  Forall (fun t => t < nft) nt /\
  match tss' with
  | [] => True
  | t :: _ => nft <= t
  end.
Proof.
  intros Hlen H.
  destruct (next_files_acc nft tss fns [] [] fns' tss' nf nt Hlen H)
    as (pf & pt & -> & -> & -> & -> & Hl & Hall & Hhd).
  cbn [app]. repeat split; auto.
  rewrite !length_app in Hlen. lia.
Qed.

Lemma next_files_split_witness :
  [Some "a"; Some "b"; Some "c"] = [Some "a"; Some "b"] ++ [Some "c"] /\
  [10; 20; 30] = [10; 20] ++ [30] /\
  List.length [Some "a"; Some "b"] = List.length [10; 20] /\
  List.length [Some "c"] = List.length [30] /\
  Forall (fun t => t < 25) [10; 20] /\
  25 <= 30.
Proof.
  apply (next_files_split 25 [Some "a"; Some "b"; Some "c"] [Some "c"]
           [Some "a"; Some "b"] [10; 20; 30] [30] [10; 20]).
  - reflexivity.
  - reflexivity.
Defined.

End Queue.

(* ===================================================================== *)
(** * Further properties: diagnostics and dated rules *)
(* ===================================================================== *)

Section MoreHarmonizer.

Local Open Scope list_scope.

Lemma re_search_alts_none (alts : list string) (s : string) :
  re_search_alts alts s = None <->
  forall p, In p alts -> str_contains p s = false.
Proof.
  induction s as [|c s IH].
  - cbn [re_search_alts str_contains].
    destruct (find (fun a => str_prefix a "") alts) as [a|] eqn:E.
    + split; [discriminate|]. intros H. apply find_some in E. destruct E as [Hin Hp].
      specialize (H a Hin). rewrite Hp in H. discriminate.
    + split; [|reflexivity]. intros _ p Hp.
      rewrite (find_none _ _ E p Hp). reflexivity.
  - cbn [re_search_alts str_contains].
    destruct (find (fun a => str_prefix a (String c s)) alts) as [a|] eqn:E.
    + split; [discriminate|]. intros H. apply find_some in E. destruct E as [Hin Hp].
      specialize (H a Hin). rewrite Hp in H. discriminate.
    + rewrite IH. split.
      * intros H p Hp. rewrite (find_none _ _ E p Hp). now apply H.
      * intros H p Hp. specialize (H p Hp). rewrite (find_none _ _ E p Hp) in H.
        exact H.
Qed.

Lemma process_diagnostics_unchanged (df : frame) (site : string) :
  no_diagnostic_label df -> process_diagnostics df site = Ok df.
Proof.
  intros Hall. apply diagnostics_loop_no_match.
  eapply Forall_impl; [|exact Hall]. intros c Hc. now apply re_search_alts_none.
Qed.

(** X3.  [process_diagnostics] returns exactly for the frames none of
    whose labels holds a diagnostic pattern, and it returns them as they
    are: no flag column is ever added. *)
Theorem process_diagnostics_returns (df df' : frame) (site : string) :
  process_diagnostics df site = Ok df' <-> df' = df /\ no_diagnostic_label df.
Proof.
  split.
  - intros H. unfold process_diagnostics in H.
    assert (Hall : Forall (fun c => re_search_alts diag_patterns c = None) (names df)).
    { apply Forall_forall. intros c Hc.
      destruct (re_search_alts diag_patterns c) eqn:E; [|reflexivity].
      destruct (diagnostics_loop_raises site (names df) df) as [e He].
      - exists c. split; [exact Hc | congruence].
      - congruence. }
    rewrite (diagnostics_loop_no_match site _ df Hall) in H. injection H as <-.
    split; [reflexivity|]. unfold no_diagnostic_label.
    eapply Forall_impl; [|exact Hall]. intros c Hc. now apply re_search_alts_none.
  - intros [-> Hall]. now apply process_diagnostics_unchanged.
Qed.

Lemma select_rule_no_rule (site : string) (fts : Timestamp) :
  no_rule_date site fts -> select_rule site (date fts) = Unbound.
Proof.
  unfold no_rule_date, select_rule, date_lt, date_gt.
  intros [[-> H]|[-> H]]; cbn [String.eqb Ascii.eqb Bool.eqb andb].
  - change (date d_2100_11_19) with 47804 in H.
    change d_2100_11_19 with (47804 * ns_per_day).
    destruct (Z.ltb_spec (date fts * ns_per_day) (47804 * ns_per_day)) as [Hlt|_];
      [|reflexivity].
    unfold ns_per_day, ns_per_hour, ns_per_min, ns_per_s, ns_per_ms in Hlt. lia.
  - change (date d_2019_02_13) with 17940 in H.
    change d_2019_02_13 with (17940 * ns_per_day).
    destruct (Z.gtb_spec (date fts * ns_per_day) (17940 * ns_per_day)) as [Hgt|_];
      [|reflexivity].
    unfold ns_per_day, ns_per_hour, ns_per_min, ns_per_s, ns_per_ms in Hgt. lia.
Qed.

(** X4.  For SF4 from 2100-11-19 on and for UF3 up to 2019-02-13 no
    branch of [reorder_headers] sets the rule: for a configured site the
    call raises [UnboundLocalError] whatever the frame, and [KeyError]
    for a site the engine does not have. *)
Theorem reorder_headers_no_rule (s : engine) (site : string) (fts : Timestamp)
  (df : frame) :
  no_rule_date site fts ->
  reorder_headers s site fts df =
  match assoc site (site_info s) with
  | Some _ => Raise UnboundLocalError
  | None => Raise KeyError
  end.
Proof.
  intros H. unfold reorder_headers. rewrite (select_rule_no_rule _ _ H).
  unfold dict_get. now destruct (assoc site (site_info s)).
Qed.

Lemma reorder_headers_no_rule_witness :
  reorder_headers sf4_engine "SF4" t_2101_01_01 sf4_canonical =
  match assoc "SF4" (site_info sf4_engine) with
  | Some _ => Raise UnboundLocalError
  | None => Raise KeyError
  end.
Proof.
  apply (reorder_headers_no_rule sf4_engine "SF4" t_2101_01_01 sf4_canonical).
  left. split; [reflexivity|]. vm_compute. discriminate.
Defined.

(** X5.  On the maintenance day of NF17, NF3 and SF7 no file can be
    processed: the harmonizer hands back the placeholder, whose
    timestamps already are the row index, and setting the index again
    fails.  A file that reads and has no diagnostic label raises
    [KeyError]. *)
Theorem process_file_maintenance (e : env) (s : engine) (fn : path) (site : string)
  (ts : Timestamp) (r : site_rec) :
  In site ["NF17"; "NF3"; "SF7"] ->
  date ts = date d_2019_05_19 ->
  assoc site (site_info s) = Some r ->
  assoc site final_headers = Some (final_header r) ->
  raises (process_file e s fn site ts) /\
  (forall raw, read_csv e fn = Ok raw ->
               convert_timestamps raw = Ok raw ->
               no_diagnostic_label raw ->
               process_file e s fn site ts = Raise KeyError).
Proof.
  intros Hsite Hd Hr Hh.
  assert (Hrule : select_rule site (date ts) = Maintenance).
  { rewrite Hd. simpl in Hsite.
    destruct Hsite as [<-|[<-|[<-|[]]]]; vm_compute; reflexivity. }
  assert (Hre : forall df, reorder_headers s site ts df
                           = Ok (placeholder s ts (final_header r))).
  { intros df. unfold reorder_headers. rewrite Hrule.
    now apply make_empty_placeholder. }
  pose proof (placeholder_has_no_timestamp s ts site _ Hh) as Hidx.
  split.
  - unfold process_file.
    destruct (read_csv e fn) as [d0|e0]; [|now exists e0]. cbn [bind].
    destruct (convert_timestamps d0) as [d1|e1]; [|now exists e1]. cbn [bind].
    destruct (process_diagnostics d1 site) as [d2|e2]; [|now exists e2]. cbn [bind].
    rewrite Hre. cbn [bind]. rewrite Hidx. now exists KeyError.
  - intros raw Hread Hconv Hdiag. unfold process_file.
    rewrite Hread. cbn [bind]. rewrite Hconv. cbn [bind].
    rewrite (process_diagnostics_unchanged raw site Hdiag).
    cbn [bind]. rewrite Hre. cbn [bind]. now rewrite Hidx.
Qed.

Lemma process_file_maintenance_witness :
  raises (process_file sf4_spill_env nf3_engine (Some sf4_path) "NF3" noon_2019_05_19) /\
  (forall raw, read_csv sf4_spill_env (Some sf4_path) = Ok raw ->
               convert_timestamps raw = Ok raw ->
               no_diagnostic_label raw ->
               process_file sf4_spill_env nf3_engine (Some sf4_path) "NF3" noon_2019_05_19
               = Raise KeyError).
Proof.
  apply (process_file_maintenance sf4_spill_env nf3_engine (Some sf4_path) "NF3"
           noon_2019_05_19 (site_rec_of nf3_engine "NF3")).
  - simpl. tauto.
  - reflexivity.
  - reflexivity.
  - reflexivity.
Defined.

End MoreHarmonizer.

(* ===================================================================== *)
(** * Further properties: the summary array *)
(* ===================================================================== *)

Section MoreSummary.

Local Open Scope list_scope.

Lemma summarise_column_local (s : engine) (dat : frame) (arr arr' : ndarray)
  (sites : list (string * nat)) (idfts : nat) (c : string) :
  summarise_column s dat arr sites idfts c = Ok arr' ->
  shape arr' = shape arr /\
  forall i0 k i j, i0 <> idfts ->
                   arr_get arr' (i0, k, i, j) = arr_get arr (i0, k, i, j).
Proof.
  intros H. apply summarise_column_inv in H.
  destruct (summary_target sites c) as [[i' j']|]; [|subst; auto].
  destruct H as (vals & stats & _ & _ & Hset). split.
  - now apply arr_set_stats_inv in Hset.
  - intros i0 k i j Hne. apply (arr_get_set_other _ _ _ _ _ _ _ Hset).
    intros k' [= -> _ _ _]. now apply Hne.
Qed.

(** X6.  Summarising an interval writes into the rows of that interval
    only: the shape of the array and every cell of another interval are
    as before. *)
Theorem update_summary_local (s : engine) (dat : frame) (arr arr' : ndarray)
  (sites : list (string * nat)) (idfts : nat) :
  update_summary s dat arr sites idfts = Ok arr' ->
  shape arr' = shape arr /\
  forall i0 k i j, i0 <> idfts ->
                   arr_get arr' (i0, k, i, j) = arr_get arr (i0, k, i, j).
Proof.
  unfold update_summary. generalize (names dat). intros labels. revert arr.
  induction labels as [|c labels IH]; intros arr H.
  - injection H as <-. auto.
  - cbn [summary_loop] in H. apply bind_Ok in H. destruct H as (arr1 & Hstep & Hrest).
    destruct (summarise_column_local _ _ _ _ _ _ _ Hstep) as [Hs1 Hc1].
    destruct (IH _ Hrest) as [Hs Hc]. split; [congruence|].
    intros i0 k i j Hne. rewrite (Hc i0 k i j Hne). now apply Hc1.
Qed.

Lemma update_summary_local_witness :
  shape (array_of (update_summary sf4_engine (frame_of sf4_idle_interval)
                     blank_summary [("SF4", 0%nat)] 0))
  = shape blank_summary /\
  forall i0 k i j,
    i0 <> 0%nat ->
    arr_get (array_of (update_summary sf4_engine (frame_of sf4_idle_interval)
                         blank_summary [("SF4", 0%nat)] 0)) (i0, k, i, j)
    = arr_get blank_summary (i0, k, i, j).
Proof.
  apply (update_summary_local sf4_engine (frame_of sf4_idle_interval) blank_summary
           (array_of (update_summary sf4_engine (frame_of sf4_idle_interval)
                        blank_summary [("SF4", 0%nat)] 0))
           [("SF4", 0%nat)] 0).
  vm_compute. reflexivity.
Defined.

End MoreSummary.

(* ===================================================================== *)
(** * Further properties: the file index *)
(* ===================================================================== *)

Section MoreFileIndex.

Local Open Scope list_scope.



Lemma insert_sorted_length (t : Z) (l : list Z) :
  List.length (insert_sorted t l) = S (List.length l).
Proof.
  induction l as [|y l IH]; simpl; [reflexivity|].
  destruct (t <=? y); simpl; [reflexivity | now rewrite IH].
Qed.



Lemma sorted_length (l : list Z) : List.length (sorted l) = List.length l.
Proof.
  unfold sorted. induction l as [|y l IH]; simpl; [reflexivity|].
  now rewrite insert_sorted_length, IH.
Qed.



Lemma find_sites_other (e : env) (start stop : Timestamp) (sites : list string)
  (s s' : engine) (site : string) :
  find_sites e start stop sites s = Ok s' ->
  ~ In site sites ->
  assoc site (site_info s') = assoc site (site_info s).
Proof.
  revert s. induction sites as [|site0 sites IH]; intros s H Hno.
  - now injection H as <-.
  - cbn [find_sites] in H. apply bind_Ok in H. destruct H as (r & _ & H).
    apply bind_Ok in H. destruct H as (r' & _ & H).
    rewrite (IH _ H) by (intros Hin; apply Hno; now right).
    unfold set_site, set_site_info. cbn [site_info].
    apply assoc_dict_set_ne. intros ->. apply Hno. now left.
Qed.




End MoreFileIndex.

(* ===================================================================== *)
(** * Further properties: what an interval does to the state *)
(* ===================================================================== *)

Section Progress.

Local Open Scope list_scope.

Lemma same_config_refl (s : engine) : same_config s s.
Proof. unfold same_config. repeat split. Qed.

Lemma same_config_trans (s1 s2 s3 : engine) :
  same_config s1 s2 -> same_config s2 s3 -> same_config s1 s3.
Proof.
  unfold same_config. intros (A1 & A2 & A3 & A4 & A5 & A6 & A7 & A8)
                             (B1 & B2 & B3 & B4 & B5 & B6 & B7 & B8).
  repeat split; congruence.
Qed.

Lemma same_config_set_site (s : engine) (site : string) (r : site_rec) :
  same_config s (set_site s site r).
Proof. unfold same_config. repeat split. Qed.

Lemma site_progress_refl (r : site_rec) (i : nat) : site_progress r i r i.
Proof.
  unfold site_progress. repeat split. exists []. split; [reflexivity|].
  simpl. lia.
Qed.

Lemma site_progress_trans (r1 r2 r3 : site_rec) (i1 i2 i3 : nat) :
  site_progress r1 i1 r2 i2 -> site_progress r2 i2 r3 i3 ->
  site_progress r1 i1 r3 i3.
Proof.
  unfold site_progress.
  intros ((p1 & Hq1 & Hi1) & A1 & A2 & A3 & A4 & A5 & A6)
         ((p2 & Hq2 & Hi2) & B1 & B2 & B3 & B4 & B5 & B6).
  repeat split; try congruence.
  exists (p1 ++ p2). split.
  - rewrite Hq1, Hq2. now rewrite app_assoc.
  - rewrite length_app. lia.
Qed.

Lemma next_files_popped (nft : Timestamp) (tss : list Timestamp) :
  forall (fns : list path) (accf : list path) (acct : list Timestamp)
         (fns' : list path) (tss' : list Timestamp)
         (nf : list path) (nt : list Timestamp),
    List.length accf = List.length acct ->
    next_files nft fns tss accf acct = ((fns', tss'), (nf, nt)) ->
    exists pt, nt = acct ++ pt /\ tss = pt ++ tss' /\
               List.length nf = List.length nt.
Proof.
  induction tss as [|t tss IH]; intros fns accf acct fns' tss' nf nt Hacc H.
  - cbn [next_files] in H. injection H as <- <- <- <-.
    exists []. rewrite app_nil_r. auto.
  - cbn [next_files] in H. destruct (t <? nft).
    + destruct fns as [|fn fns].
      * injection H as <- <- <- <-. exists []. rewrite app_nil_r. auto.
      * destruct (IH fns (accf ++ [fn]) (acct ++ [t]) fns' tss' nf nt)
          as (pt & -> & -> & Hl).
        -- rewrite !length_app. simpl. lia.
        -- exact H.
        -- exists (t :: pt). rewrite <- app_assoc in Hl |- *.
           split; [reflexivity|]. split; [reflexivity | exact Hl].
    + injection H as <- <- <- <-. exists []. rewrite app_nil_r. auto.
Qed.

Lemma update_metadata_effect (e : env) (s s' : engine) (dfts ts : Timestamp)
  (desired_fn : string) (fn : path) (site : string) (ifile ifile' : ifile_t) :
  update_metadata e s dfts desired_fn ts fn site ifile = Ok (s', ifile') ->
  exists r i m,
    assoc site (site_info s) = Some r /\
    assoc site ifile = Some i /\
    List.length (meta_rows m) = List.length (meta_rows (rawfile_metadata r)) /\
    s' = set_site s site (set_metadata r m) /\
    ifile' = dict_set ifile site (S i).
Proof.
  unfold update_metadata. intros H.
  apply bind_Ok in H. destruct H as (f & _ & H).
  unfold dict_get in H.
  destruct (assoc site (site_info s)) as [r|] eqn:Hr; [|discriminate].
  cbn [bind] in H.
  destruct (assoc site ifile) as [i|] eqn:Hi; [|discriminate].
  cbn [bind] in H.
  apply bind_Ok in H. destruct H as (m & Hm & H).
  injection H as <- <-. exists r, i, m. repeat split.
  unfold iloc_set in Hm. destruct (Nat.ltb _ _); [|discriminate].
  destruct (Nat.eqb _ _); [|discriminate].
  injection Hm as <-. cbn [meta_rows]. apply length_list_set.
Qed.

Lemma read_files_effect (e : env) (site : string) (dfts : Timestamp)
  (desired_fn : string) (files : list (path * Timestamp)) :
  forall (s s' : engine) (rd0 rd : option frame) (ifile ifile' : ifile_t)
         (r : site_rec) (i : nat),
    read_files e s site dfts desired_fn files rd0 ifile = Ok (rd, s', ifile') ->
    assoc site (site_info s) = Some r ->
    assoc site ifile = Some i ->
    same_config s s' /\
    (exists r', assoc site (site_info s') = Some r' /\
                assoc site ifile' = Some (i + List.length files)%nat /\
                same_but_metadata r r') /\
    (forall site', site' <> site ->
                   assoc site' (site_info s') = assoc site' (site_info s) /\
                   assoc site' ifile' = assoc site' ifile).
Proof.
  induction files as [|[fn ts] files IH]; intros s s' rd0 rd ifile ifile' r i H Hr Hi.
  - injection H as _ <- <-. split; [apply same_config_refl|]. split.
    + exists r. rewrite Nat.add_0_r. unfold same_but_metadata. repeat split; assumption.
    + auto.
  - cbn [read_files] in H.
    apply bind_Ok in H. destruct H as (tmp & _ & H).
    apply bind_Ok in H. destruct H as (rd1 & _ & H).
    apply bind_Ok in H. destruct H as ([s1 ifile1] & Hmeta & H).
    destruct (update_metadata_effect _ _ _ _ _ _ _ _ _ _ Hmeta)
      as (r0 & i0 & m & Hr0 & Hi0 & Hm & -> & ->).
    rewrite Hr in Hr0. injection Hr0 as <-. rewrite Hi in Hi0. injection Hi0 as <-.
    destruct (IH _ _ _ _ _ _ (set_metadata r m) (S i) H)
      as (Hc & (r' & Hr' & Hi' & Hsame) & Hother).
    + unfold set_site, set_site_info. cbn [site_info]. apply assoc_dict_set_eq.
    + apply assoc_dict_set_eq.
    + split; [|split].
      * eapply same_config_trans; [apply same_config_set_site | exact Hc].
      * exists r'. split; [exact Hr'|]. split.
        -- rewrite Hi'. cbn [List.length]. f_equal. lia.
        -- unfold same_but_metadata in *. cbn in Hsame.
           destruct Hsame as (A1 & A2 & A3 & A4 & A5 & A6 & A7 & A8).
           repeat split; congruence.
      * intros site' Hne. destruct (Hother site' Hne) as [H1 H2]. split.
        -- rewrite H1. unfold set_site, set_site_info. cbn [site_info].
           now apply assoc_dict_set_ne.
        -- rewrite H2. now apply assoc_dict_set_ne.
Qed.

Lemma length_combine_same {A B : Type} (l : list A) (l' : list B) :
  List.length l = List.length l' -> List.length (combine l l') = List.length l'.
Proof.
  intros H. rewrite length_combine. lia.
Qed.

Lemma assemble_site_effect (e : env) (s s' : engine) (site : string) (dfts : Timestamp)
  (desired_fn : string) (ifile ifile' : ifile_t) (rawdat : frame) :
  assemble_site e s site dfts desired_fn ifile = Ok (rawdat, s', ifile') ->
  same_config s s' /\
  (forall r i, assoc site (site_info s) = Some r -> assoc site ifile = Some i ->
               exists r' i', assoc site (site_info s') = Some r' /\
                             assoc site ifile' = Some i' /\
                             site_progress r i r' i') /\
  (forall site', site' <> site ->
                 assoc site' (site_info s') = assoc site' (site_info s) /\
                 assoc site' ifile' = assoc site' ifile).
Proof.
  unfold assemble_site, dict_get. intros H.
  destruct (assoc site (site_info s)) as [r|] eqn:Hr; [|discriminate].
  cbn [bind] in H.
  destruct (next_files (dfts + Timedelta_min (file_length s)) (fns_temp r)
              (file_tss_temp r) [] []) as [[f' t'] [nf nt]] eqn:Hpop.
  cbn [fst snd] in H.
  destruct (next_files_popped _ _ _ [] [] _ _ _ _ eq_refl Hpop) as (pt & Hnt & Htss & Hlen).
  cbn [app] in Hnt. subst pt.
  set (r1 := set_temp r f' t') in *.
  set (s1 := set_site s site r1) in *.
  assert (Hr1 : assoc site (site_info s1) = Some r1).
  { unfold s1, set_site, set_site_info. cbn [site_info]. apply assoc_dict_set_eq. }
  assert (Hs1 : forall site', site' <> site ->
                              assoc site' (site_info s1) = assoc site' (site_info s)).
  { intros site' Hne. unfold s1, set_site, set_site_info. cbn [site_info].
    now apply assoc_dict_set_ne. }
  destruct nf as [|fn0 nf].
  - apply bind_Ok in H. destruct H as (df & _ & H). injection H as _ <- <-.
    destruct nt; [|discriminate]. cbn [app] in Htss.
    split; [apply same_config_set_site|]. split.
    + intros r0 i Hr0 Hi. injection Hr0 as <-. exists r1, i.
      split; [exact Hr1|]. split; [exact Hi|].
      unfold site_progress, r1, set_temp. cbn. repeat split.
      exists []. split; [now rewrite Htss | simpl; lia].
    + intros site' Hne. split; [now apply Hs1 | reflexivity].
  - apply bind_Ok in H. destruct H as ([[rd s2] ifile2] & Hread & H).
    destruct rd as [rd|]; [|discriminate]. injection H as _ <- <-.
    assert (Hfiles : List.length (combine (fn0 :: nf) nt) = List.length nt).
    { now apply length_combine_same. }
    split; [|split].
    + destruct nt as [|t0 nt]; [discriminate|].
      cbn [combine read_files] in Hread.
      apply bind_Ok in Hread. destruct Hread as (tmp & _ & Hread).
      apply bind_Ok in Hread. destruct Hread as (rd1 & _ & Hread).
      apply bind_Ok in Hread. destruct Hread as ([s3 ifile3] & Hmeta & Hread).
      destruct (update_metadata_effect _ _ _ _ _ _ _ _ _ _ Hmeta)
        as (r0 & i0 & m & Hr0 & Hi0 & Hm & -> & ->).
      destruct (read_files_effect _ _ _ _ _ _ _ _ _ _ _ (set_metadata r0 m) (S i0) Hread)
        as (Hc & _ & _).
      * unfold set_site, set_site_info. cbn [site_info]. apply assoc_dict_set_eq.
      * apply assoc_dict_set_eq.
      * eapply same_config_trans; [apply same_config_set_site|].
        eapply same_config_trans; [apply same_config_set_site | exact Hc].
    + intros r0 i Hr0 Hi. injection Hr0 as <-.
      destruct (read_files_effect _ _ _ _ _ _ _ _ _ _ _ r1 i Hread Hr1 Hi)
        as (_ & (r' & Hr' & Hi' & Hsame) & _).
      exists r', (i + List.length nt)%nat. split; [exact Hr'|].
      split; [now rewrite Hi', Hfiles|].
      unfold same_but_metadata, r1, set_temp in Hsame. cbn in Hsame.
      destruct Hsame as (A1 & A2 & A3 & A4 & A5 & A6 & A7 & A8).
      unfold site_progress. repeat split; try assumption.
      exists nt. split; [now rewrite A7 | reflexivity].
    + intros site' Hne.
      destruct nt as [|t0 nt]; [discriminate|].
      cbn [combine read_files] in Hread.
      apply bind_Ok in Hread. destruct Hread as (tmp & _ & Hread).
      apply bind_Ok in Hread. destruct Hread as (rd1 & _ & Hread).
      apply bind_Ok in Hread. destruct Hread as ([s3 ifile3] & Hmeta & Hread).
      destruct (update_metadata_effect _ _ _ _ _ _ _ _ _ _ Hmeta)
        as (r0 & i0 & m & Hr0 & Hi0 & Hm & -> & ->).
      destruct (read_files_effect _ _ _ _ _ _ _ _ _ _ _ (set_metadata r0 m) (S i0) Hread)
        as (_ & _ & Hother).
      * unfold set_site, set_site_info. cbn [site_info]. apply assoc_dict_set_eq.
      * apply assoc_dict_set_eq.
      * destruct (Hother site' Hne) as [H1 H2]. split.
        -- rewrite H1. unfold set_site, set_site_info. cbn [site_info].
           rewrite assoc_dict_set_ne by exact Hne. now apply Hs1.
        -- rewrite H2. now apply assoc_dict_set_ne.
Qed.

Lemma sites_loop_effect (e : env) (dfts : Timestamp) (desired_fn : string)
  (sites : list string) :
  forall (dat dat' : frame) (s s' : engine) (ifile ifile' : ifile_t),
    sites_loop e dfts desired_fn sites dat s ifile = Ok (dat', s', ifile') ->
    same_config s s' /\
    forall site r i,
      assoc site (site_info s) = Some r -> assoc site ifile = Some i ->
      exists r' i', assoc site (site_info s') = Some r' /\
                    assoc site ifile' = Some i' /\
                    site_progress r i r' i'.
Proof.
  induction sites as [|site0 sites IH]; intros dat dat' s s' ifile ifile' H.
  - injection H as _ <- <-. split; [apply same_config_refl|].
    intros site r i Hr Hi. exists r, i. split; [exact Hr|]. split; [exact Hi|].
    apply site_progress_refl.
  - cbn [sites_loop] in H. apply bind_Ok in H.
    destruct H as ([[rawdat s1] ifile1] & Hsite & H).
    destruct (assemble_site_effect _ _ _ _ _ _ _ _ _ Hsite) as (Hc1 & Hown & Hother).
    destruct (IH _ _ _ _ _ _ H) as (Hc2 & Hrest).
    split; [eapply same_config_trans; eassumption|].
    intros site r i Hr Hi.
    destruct (string_dec site site0) as [->|Hne].
    + destruct (Hown r i Hr Hi) as (r1 & i1 & Hr1 & Hi1 & Hp1).
      destruct (Hrest site0 r1 i1 Hr1 Hi1) as (r' & i' & Hr' & Hi' & Hp2).
      exists r', i'. split; [exact Hr'|]. split; [exact Hi'|].
      eapply site_progress_trans; eassumption.
    + destruct (Hother site Hne) as [H1 H2].
      apply (Hrest site r i); congruence.
Qed.

(** X8.  Processing an interval leaves the configuration of the engine
    alone and moves each site forward only: files leave the front of its
    queue, the site's file counter advances by their number (so counter
    plus queue length is conserved), the metadata table keeps its size,
    and the file index built at the start ([fns], [file_tss]) and the
    final header are not altered. *)
Theorem process_interval_progress (e : env) (w w' : world) (idfts : nat)
  (dfts : Timestamp) (ifile ifile' : ifile_t) (dat : frame) :
  process_interval e w idfts dfts ifile = Ok (dat, w', ifile') ->
  same_config (self w) (self w') /\
  forall site r i,
    assoc site (site_info (self w)) = Some r -> assoc site ifile = Some i ->
    exists r' i', assoc site (site_info (self w')) = Some r' /\
                  assoc site ifile' = Some i' /\
                  site_progress r i r' i'.
Proof.
  intros H. destruct (process_interval_inv _ _ _ _ _ _ _ _ H) as (out & Hloop & _ & _).
  apply (sites_loop_effect _ _ _ _ _ _ _ _ _ _ Hloop).
Qed.

Lemma process_interval_progress_witness :
  same_config (indexed sf4_spill_env sf4_engine) (self (world_of sf4_spill_interval)) /\
  forall site r i,
    assoc site (site_info (indexed sf4_spill_env sf4_engine)) = Some r ->
    assoc site [("SF4", 0%nat)] = Some i ->
    exists r' i', assoc site (site_info (self (world_of sf4_spill_interval))) = Some r' /\
                  assoc site [("SF4", 1%nat)] = Some i' /\
                  site_progress r i r' i'.
Proof.
  apply (process_interval_progress sf4_spill_env
           (World (indexed sf4_spill_env sf4_engine) [])
           (world_of sf4_spill_interval) 0 t_2020_01_01
           [("SF4", 0%nat)] [("SF4", 1%nat)] (frame_of sf4_spill_interval)).
  vm_compute. reflexivity.
Defined.

End Progress.

(* ===================================================================== *)
(** * Further properties: the outputs of a run *)
(* ===================================================================== *)

Section Run.

Local Open Scope list_scope.








End Run.

(* ===================================================================== *)
(** * Further properties: file references, and an empty window *)
(* ===================================================================== *)

Section FileReferences.

Local Open Scope list_scope.

Lemma Forall2_map_left {A B : Type} (P : B -> A -> Prop) (f : A -> B) (l : list A) :
  (forall a, In a l -> P (f a) a) -> Forall2 P (map f l) l.
Proof.
  induction l as [|a l IH]; intros H; simpl; constructor.
  - apply H. now left.
  - apply IH. intros a' Ha'. apply H. now right.
Qed.

Lemma find_site_files_paired (e : env) (start stop : Timestamp) (r r' : site_rec) :
  find_site_files e start stop r = Ok r' ->
  Forall2 (paired e r') (fns r') (file_tss r').
Proof.
  unfold find_site_files. intros H. apply bind_Ok in H. destruct H as (tss & _ & H).
  injection H as <-. unfold set_found. cbn [fns file_tss].
  apply Forall2_map_left. intros t _.
  unfold paired, get_fn_from_timestamp. cbn [converted_path].
  destruct (find _ _) as [p|] eqn:Hfind.
  - apply find_some in Hfind. destruct Hfind as [Hin Hc].
    apply in_map_iff in Hin. destruct Hin as (name & <- & Hname).
    apply filter_In in Hname. destruct Hname as [Hin Hglob].
    exists name. auto.
  - intros name Hin Hglob.
    apply (find_none _ _ Hfind (converted_path r ++ "/" ++ name)%string).
    apply in_map_iff. exists name. split; [reflexivity|].
    apply filter_In. auto.
Qed.

Lemma find_sites_paired (e : env) (start stop : Timestamp) (sites : list string)
  (s s' : engine) (site : string) (r' : site_rec) :
  find_sites e start stop sites s = Ok s' ->
  In site sites ->
  assoc site (site_info s') = Some r' ->
  Forall2 (paired e r') (fns r') (file_tss r').
Proof.
  revert s. induction sites as [|site0 sites IH]; intros s H Hin Hr'.
  - contradiction.
  - cbn [find_sites] in H. apply bind_Ok in H. destruct H as (r0 & _ & H).
    apply bind_Ok in H. destruct H as (r0' & Hfind & H).
    destruct (in_dec string_dec site sites) as [Hrest|Hrest].
    + apply (IH _ H Hrest Hr').
    + destruct Hin as [->|Hin]; [|contradiction].
      rewrite (find_sites_other _ _ _ _ _ _ _ H Hrest) in Hr'.
      unfold set_site, set_site_info in Hr'. cbn [site_info] in Hr'.
      rewrite assoc_dict_set_eq in Hr'. injection Hr' as <-.
      apply (find_site_files_paired _ _ _ _ _ Hfind).
Qed.

(** X10.  When the file index returns, the file references of a site
    run parallel to its timestamps: the reference beside a timestamp is
    a [TOA5*.dat] file of the site's directory whose path contains the
    stamp rendered as [yyyy_mm_dd_hhMM], and it is [None] exactly when
    the directory has no such file. *)
Theorem find_fast_files_references (e : env) (s s' : engine) (site : string)
  (r' : site_rec) :
  find_fast_files e s = Ok s' ->
  assoc site (site_info s') = Some r' ->
  Forall2 (paired e r') (fns r') (file_tss r').
Proof.
  intros H Hr'. pose proof (find_fast_files_keys _ _ _ H) as Hkeys.
  unfold find_fast_files in H. apply bind_Ok in H. destruct H as (t0 & _ & H).
  eapply find_sites_paired; [exact H | | exact Hr'].
  cbn [site_info set_desired_file_tss]. rewrite <- Hkeys. eapply assoc_In_keys, Hr'.
Qed.

Lemma find_fast_files_references_witness :
  Forall2 (paired sf4_spill_env (site_rec_of (found_engine sf4_spill_env sf4_engine) "SF4"))
          (fns (site_rec_of (found_engine sf4_spill_env sf4_engine) "SF4"))
          (file_tss (site_rec_of (found_engine sf4_spill_env sf4_engine) "SF4")).
Proof.
  apply (find_fast_files_references sf4_spill_env sf4_engine
           (found_engine sf4_spill_env sf4_engine) "SF4").
  - vm_compute. reflexivity.
  - vm_compute. reflexivity.
Defined.



End FileReferences.

(* ===================================================================== *)
(** * Further properties: the sites after a run *)
(* ===================================================================== *)

Section AfterRun.

Local Open Scope list_scope.







End AfterRun.
